(** * CA-Suite frontend: the upload pages and the completion bridge

    A shallow embedding of the submit handlers of the Next.js frontend
    ([gst.js], the two [TallyImport] pages and [pages/api/generate.js]),
    with the facts about them that the specification states.

    JavaScript values are an inductive type, React state is a record that
    the handler threads through a small state-and-effect monad, and the
    network is an oracle that tells how the awaited promise settles. *)

From Stdlib Require Import String List ZArith QArith_base.
From Stdlib Require Import DecimalString.
Import ListNotations.
Local Open Scope string_scope.
Local Open Scope list_scope.
Close Scope Q_scope.
Set Warnings "-register-all".

(** ** JavaScript values *)

Module JS.

(** A value as [res.json()] or React state can hold it.  Objects are their
    own properties in enumeration order; numbers are rationals (every
    finite double is one), which the pages never compute with. *)
Inductive Value : Type :=
| Undefined
| Null
| Bool (b : bool)
| Number (q : Q)
| String (s : string)
| Array (xs : list Value)
| Object (props : list (string * Value)).

Inductive Error : Type :=
| TypeError      (* property read on null or undefined, call of a non-function *)
| SyntaxError    (* body is not JSON *)
| NetworkError   (* fetch rejected, or the body stream broke *)
| HTTPError (status : Z).  (* axios: status outside 2xx *)

(** ToBoolean *)
Definition truthy (v : Value) : bool :=
  match v with
  | Undefined | Null => false
  | Bool b => b
  | Number q => negb (Qnum q =? 0)%Z
  | String s => negb (s =? "")
  | Array _ | Object _ => true
  end.

(** [a || b] *)
Definition or (a b : Value) : Value := if truthy a then a else b.

(** [v !== undefined] *)
Definition not_undefined (v : Value) : bool :=
  match v with Undefined => false | _ => true end.

Fixpoint lookup (k : string) (props : list (string * Value)) : option Value :=
  match props with
  | [] => None
  | (k', v) :: rest => if k' =? k then Some v else lookup k rest
  end.

(** An own property, [undefined] when the object has none of that name. *)
Definition prop (props : list (string * Value)) (k : string) : Value :=
  match lookup k props with Some x => x | None => Undefined end.

(** [v.k] for the property names the pages read ([reply],
    [missing_documents], [rows], [row_count], [totals], [error], [prompt]):
    none of them is an index, [length] or a prototype member, so only an
    object can answer with something other than [undefined]. *)
Definition get (v : Value) (k : string) : Error + Value :=
  match v with
  | Undefined | Null => inl TypeError
  | Object props => inr (prop props k)
  | _ => inr Undefined
  end.

(** A property is present when the object has it at all, whatever its value. *)
Definition has (v : Value) (k : string) : bool :=
  match v with
  | Object props => match lookup k props with Some _ => true | None => false end
  | _ => false
  end.

(** [v.length]: arrays and strings have one. *)
Definition length (v : Value) : Error + Value :=
  match v with
  | Undefined | Null => inl TypeError
  | Array xs => inr (Number (inject_Z (Z.of_nat (List.length xs))))
  | String s => inr (Number (inject_Z (Z.of_nat (String.length s))))
  | _ => inr Undefined
  end.

(** [v > 0] for what [length] returns: [undefined > 0] is false. *)
Definition gt0 (v : Value) : bool :=
  match v with
  | Number q => (0 <? Qnum q)%Z
  | _ => false
  end.

(** [xs.map(f)]: only arrays have [map]. *)
Definition map {A} (v : Value) (f : Value -> A) : Error + list A :=
  match v with
  | Array xs => inr (List.map f xs)
  | _ => inl TypeError
  end.

Definition index_key (i : nat) : string := NilEmpty.string_of_uint (Nat.to_uint i).

Fixpoint indexed {A} (i : nat) (xs : list A) : list (string * A) :=
  match xs with
  | [] => []
  | x :: rest => (index_key i, x) :: indexed (S i) rest
  end.

Fixpoint chars (s : string) : list Value :=
  match s with
  | EmptyString => []
  | String.String c rest => String (String.String c EmptyString) :: chars rest
  end.

(** [Object.entries(v)]: the own enumerable properties, in order. *)
Definition entries (v : Value) : Error + list (string * Value) :=
  match v with
  | Undefined | Null => inl TypeError
  | Object props => inr props
  | Array xs => inr (indexed 0 xs)
  | String s => inr (indexed 0 (chars s))
  | Bool _ | Number _ => inr []
  end.

(** [obj[k] = v]: an existing property keeps its place. *)
Fixpoint set (props : list (string * Value)) (k : string) (v : Value)
    : list (string * Value) :=
  match props with
  | [] => [(k, v)]
  | (k', v') :: rest => if k' =? k then (k', v) :: rest else (k', v') :: set rest k v
  end.

(** [Object.fromEntries(pairs)] *)
Definition fromEntries (pairs : list (string * Value)) : Value :=
  Object (fold_left (fun props kv => set props (fst kv) (snd kv)) pairs []).

End JS.

(** ** Files and multipart form data *)

Record File : Type := mkFile
  { file_name : string;
    file_type : string;
    file_bytes : list Byte.byte }.

(** What a file slot of React state holds: [null] at first, [undefined]
    when the chooser was closed without a choice ([e.target.files[0]]). *)
Inductive FileSlot : Type :=
| SlotNull
| SlotUndefined
| SlotFile (f : File).

Definition slot_truthy (s : FileSlot) : bool :=
  match s with SlotFile _ => true | _ => false end.

Module FormData.

Definition t : Type := list (string * File).

Definition empty : t := [].

(** [formData.append(name, file)] adds the entry after the existing ones. *)
Definition append (fd : t) (name : string) (f : File) : t := fd ++ [(name, f)].

(** [formData.getAll(name)] *)
Definition getAll (fd : t) (name : string) : list File :=
  map snd (filter (fun e => fst e =? name) fd).

End FormData.

(** ** Effects, network outcomes and the handler monad *)

Inductive Effect : Type :=
| PreventDefault
| Fetch (url method : string) (body : FormData.t)
| AxiosPost (url : string) (data : JS.Value)
| ConsoleError (e : JS.Error).

Inductive Body : Type :=
| BodyJSON (v : JS.Value)   (* [res.json()] resolves with [v] *)
| BodyMalformed             (* [res.json()] rejects: not JSON *)
| BodyInterrupted.          (* [res.json()] rejects: stream failed *)

Record Response : Type := mkResponse { status : Z; body : Body }.

(** How the promise of [fetch] settles.  [fetch] resolves for every HTTP
    status; it rejects only when no response arrives. *)
Inductive NetResult : Type :=
| NetRejected
| NetResponded (r : Response)
| NetPending.   (* no time-out is configured: the promise may never settle *)

(** How the promise of [axios.post] settles: axios rejects when the status
    is outside 2xx. *)
Inductive AxiosResult : Type :=
| AxiosFailed (e : JS.Error)
| AxiosResolved (data : JS.Value)
| AxiosPending.

(** [process.env] *)
Definition Env : Type := string -> option string.

(** [process.env.X || d]: the empty string is falsy too. *)
Definition env_or (v : option string) (d : string) : string :=
  match v with
  | Some s => if s =? "" then d else s
  | None => d
  end.

(** [process.env.X + s]: string concatenation after ToString. *)
Definition env_plus (v : option string) (s : string) : string :=
  match v with
  | Some b => b ++ s
  | None => "undefined" ++ s
  end.

Inductive Completion (A : Type) : Type :=
| Normal (a : A)
| Throw (e : JS.Error)
| Suspended.   (* stopped at an [await] that never resumes *)
Arguments Normal {A} a.
Arguments Throw {A} e.
Arguments Suspended {A}.

Definition M (S A : Type) : Type := S -> Completion A * S * list Effect.

Section Monad.
Context {S : Type}.

Definition ret {A} (a : A) : M S A := fun s => (Normal a, s, []).

Definition bind {A B} (m : M S A) (k : A -> M S B) : M S B :=
  fun s =>
    match m s with
    | (Normal a, s1, l1) => let '(c, s2, l2) := k a s1 in (c, s2, l1 ++ l2)
    | (Throw e, s1, l1) => (Throw e, s1, l1)
    | (Suspended, s1, l1) => (Suspended, s1, l1)
    end.

Definition throw {A} (e : JS.Error) : M S A := fun s => (Throw e, s, []).

Definition emit (e : Effect) : M S unit := fun s => (Normal tt, s, [e]).

Definition modify (f : S -> S) : M S unit := fun s => (Normal tt, f s, []).

Definition gets {A} (f : S -> A) : M S A := fun s => (Normal (f s), s, []).

Definition lift {A} (r : JS.Error + A) : M S A :=
  match r with inl e => throw e | inr a => ret a end.

(** [try { body } catch (err) { handler }] *)
Definition try_catch {A} (body : M S A) (handler : JS.Error -> M S A) : M S A :=
  fun s =>
    match body s with
    | (Throw e, s1, l1) => let '(c, s2, l2) := handler e s1 in (c, s2, l1 ++ l2)
    | r => r
    end.

(** [try { body } finally { fin }]: [fin] runs on both exits, not while
    [body] is still suspended. *)
Definition try_finally {A} (body : M S A) (fin : M S unit) : M S A :=
  fun s =>
    match body s with
    | (Suspended, s1, l1) => (Suspended, s1, l1)
    | (c, s1, l1) =>
        match fin s1 with
        | (Normal _, s2, l2) => (c, s2, l1 ++ l2)
        | (Throw e, s2, l2) => (Throw e, s2, l1 ++ l2)
        | (Suspended, s2, l2) => (Suspended, s2, l1 ++ l2)
        end
    end.

Definition try_catch_finally {A} (body : M S A) (handler : JS.Error -> M S A)
    (fin : M S unit) : M S A :=
  try_finally (try_catch body handler) fin.

(** [await fetch(url, { method, body })] *)
Definition fetch (net : NetResult) (url method : string) (fd : FormData.t)
    : M S Response :=
  fun s =>
    (match net with
     | NetRejected => Throw JS.NetworkError
     | NetResponded r => Normal r
     | NetPending => Suspended
     end, s, [Fetch url method fd]).

(** [await res.json()] *)
Definition json (r : Response) : M S JS.Value :=
  match body r with
  | BodyJSON v => ret v
  | BodyMalformed => throw JS.SyntaxError
  | BodyInterrupted => throw JS.NetworkError
  end.

(** [await axios.post(url, data)]; resolves with [response.data]. *)
Definition axios_post (net : AxiosResult) (url : string) (data : JS.Value)
    : M S JS.Value :=
  fun s =>
    (match net with
     | AxiosFailed e => Throw e
     | AxiosResolved d => Normal d
     | AxiosPending => Suspended
     end, s, [AxiosPost url data]).

Definition console_error (e : JS.Error) : M S unit := emit (ConsoleError e).

End Monad.

Notation "x <- m ;; k" := (bind m (fun x => k))
  (at level 61, m at next level, right associativity).
Notation "m ;; k" := (bind m (fun _ => k))
  (at level 61, right associativity).

Definition final_state {S A} (r : Completion A * S * list Effect) : S := snd (fst r).
Definition completion {S A} (r : Completion A * S * list Effect) : Completion A := fst (fst r).
Definition effects {S A} (r : Completion A * S * list Effect) : list Effect := snd r.

Definition is_fetch (e : Effect) : bool :=
  match e with Fetch _ _ _ => true | _ => false end.
Definition is_network (e : Effect) : bool :=
  match e with Fetch _ _ _ | AxiosPost _ _ => true | _ => false end.
Definition is_console_error (e : Effect) : bool :=
  match e with ConsoleError _ => true | _ => false end.

(** The [catch] branch of a handler ran: every one of them logs. *)
Definition took_catch (l : list Effect) : bool := existsb is_console_error l.

(** ** The GST notice page ([gst.js]) *)

Module GSTNotice.

Record State : Type := mkState
  { noticeFile : FileSlot;
    supportFiles : list File;
    reply : JS.Value;
    missing : JS.Value;
    loading : bool }.

(** [useState] initial values *)
Definition initial : State :=
  {| noticeFile := SlotNull; supportFiles := []; reply := JS.String "";
     missing := JS.Array []; loading := false |}.

Definition setNoticeFile (f : FileSlot) : M State unit :=
  modify (fun s => {| noticeFile := f; supportFiles := supportFiles s;
                      reply := reply s; missing := missing s; loading := loading s |}).
Definition setSupportFiles (fs : list File) : M State unit :=
  modify (fun s => {| noticeFile := noticeFile s; supportFiles := fs;
                      reply := reply s; missing := missing s; loading := loading s |}).
Definition setReply (v : JS.Value) : M State unit :=
  modify (fun s => {| noticeFile := noticeFile s; supportFiles := supportFiles s;
                      reply := v; missing := missing s; loading := loading s |}).
Definition setMissing (v : JS.Value) : M State unit :=
  modify (fun s => {| noticeFile := noticeFile s; supportFiles := supportFiles s;
                      reply := reply s; missing := v; loading := loading s |}).
Definition setLoading (b : bool) : M State unit :=
  modify (fun s => {| noticeFile := noticeFile s; supportFiles := supportFiles s;
                      reply := reply s; missing := missing s; loading := b |}).

(** Lines 19-23: the form data of one submission. *)
Definition encode (notice : File) (support : list File) : FormData.t :=
  let formData := FormData.empty in
  let formData := FormData.append formData "notice" notice in
  fold_left (fun fd file => FormData.append fd "additional_documents" file)
            support formData.

(** Lines 30-32: what the page keeps of the response. *)
Definition mapNotice (data : JS.Value) : M State unit :=
  r <- lift (JS.get data "reply") ;;
  setReply r ;;
  m <- lift (JS.get data "missing_documents") ;;
  setMissing (JS.or m (JS.Array [])).

Definition handleSubmit (env : Env) (net : NetResult) : M State unit :=
  emit PreventDefault ;;
  nf <- gets noticeFile ;;
  match nf with
  | SlotNull | SlotUndefined => ret tt
  | SlotFile notice =>
      setLoading true ;;
      support <- gets supportFiles ;;
      let formData := encode notice support in
      try_catch_finally
        (let backendURL := env_or (env "NEXT_PUBLIC_BACKEND_URL") "http://localhost:8000" in
         res <- fetch net (backendURL ++ "/gst_notice") "POST" formData ;;
         data <- json res ;;
         mapNotice data)
        (fun err => console_error err)
        (setLoading false)
  end.

End GSTNotice.

(** ** What a component renders *)

Inductive Node : Type :=
| Text (s : string)                       (* literal JSX text *)
| Expr (v : JS.Value)                     (* a value in braces *)
| Elem (tag : string) (children : list Node).

(** React shows nothing for [false], [true], [null], [undefined] and the
    empty string. *)
Definition blank (n : Node) : bool :=
  match n with
  | Text s => s =? ""
  | Expr JS.Undefined | Expr JS.Null | Expr (JS.Bool _) => true
  | Expr (JS.String s) => s =? ""
  | Expr _ => false
  | Elem _ _ => false
  end.

Definition shows_something (view : list Node) : bool :=
  existsb (fun n => negb (blank n)) view.

(** [cond && element] *)
Definition and_then (cond : JS.Value) (n : Node) : Node :=
  if JS.truthy cond then n else Expr cond.

Definition bind_sum {E A B} (r : E + A) (k : A -> E + B) : E + B :=
  match r with inl e => inl e | inr a => k a end.

Module GSTNoticeView.
Import GSTNotice.

(** Lines 67-83, the part of the page that depends on state; the heading
    and the form above it are the same in every state. *)
Definition render (s : State) : JS.Error + list Node :=
  bind_sum (JS.length (missing s)) (fun len =>
  bind_sum (if JS.gt0 len
            then bind_sum (JS.map (missing s) (fun d => Elem "li" [Expr d]))
                   (fun items => inr (Elem "div" [Elem "h2" [Text "Missing Documents"];
                                                  Elem "ul" items]))
            else inr (Expr (JS.Bool false))) (fun missing_block =>
  inr [ and_then (JS.Bool (loading s)) (Elem "p" [Text "Processing…"]);
        missing_block;
        and_then (reply s) (Elem "div" [Elem "h2" [Text "Draft Reply"];
                                        Elem "pre" [Expr (reply s)]]) ])).

End GSTNoticeView.

(** ** The Tally import page ([TallyImport], reads [rows]) *)

Module TallyImport.

Record State : Type := mkState
  { file : FileSlot;
    result : JS.Value;
    loading : bool }.

Definition initial : State :=
  {| file := SlotNull; result := JS.Null; loading := false |}.

Definition setFile (f : FileSlot) : M State unit :=
  modify (fun s => {| file := f; result := result s; loading := loading s |}).
Definition setResult (v : JS.Value) : M State unit :=
  modify (fun s => {| file := file s; result := v; loading := loading s |}).
Definition setLoading (b : bool) : M State unit :=
  modify (fun s => {| file := file s; result := result s; loading := b |}).

Definition failure_message : JS.Value :=
  JS.Object [("error", JS.String "Failed to import file")].

Definition handleSubmit (env : Env) (net : NetResult) : M State unit :=
  emit PreventDefault ;;
  f <- gets file ;;
  match f with
  | SlotNull | SlotUndefined => ret tt
  | SlotFile f =>
      let formData := FormData.append FormData.empty "file" f in
      setLoading true ;;
      try_catch_finally
        (let backendURL := env_or (env "NEXT_PUBLIC_BACKEND_URL") "http://localhost:8000" in
         res <- fetch net (backendURL ++ "/import_tally") "POST" formData ;;
         data <- json res ;;
         setResult data)
        (fun err => console_error err ;; setResult failure_message)
        (setLoading false)
  end.

(** The row count the page shows: [result.rows]. *)
Definition rowCount (result : JS.Value) : JS.Error + JS.Value := JS.get result "rows".

Definition total_item (kv : string * JS.Value) : Node :=
  Elem "li" [Expr (JS.String (fst kv)); Text ": "; Expr (snd kv)].

(** Lines 48-66: the summary under the form. *)
Definition render (s : State) : JS.Error + list Node :=
  if JS.truthy (result s) then
    bind_sum (JS.get (result s) "error") (fun error =>
    bind_sum (rowCount (result s)) (fun rows =>
    bind_sum (JS.get (result s) "totals") (fun totals =>
    bind_sum (if JS.truthy totals
              then bind_sum (JS.entries totals) (fun es =>
                     inr (Elem "div" [Elem "h3" [Text "Totals"];
                                      Elem "ul" (List.map total_item es)]))
              else inr (Expr totals)) (fun totals_block =>
    inr [ Elem "div"
            [ Elem "h2" [Text "Summary"];
              and_then error (Elem "p" [Expr error]);
              and_then (JS.Bool (JS.not_undefined rows))
                       (Elem "p" [Text "Rows: "; Expr rows]);
              totals_block ] ]))))
  else inr [Expr (result s)].

End TallyImport.

(** ** The second Tally page ([TallyImport] under the heading
    "Tally Data Import", reads [row_count]) *)

Module TallyDataImport.

Record State : Type := mkState
  { file : FileSlot;
    result : JS.Value;
    loading : bool }.

Definition initial : State :=
  {| file := SlotNull; result := JS.Null; loading := false |}.

Definition setResult (v : JS.Value) : M State unit :=
  modify (fun s => {| file := file s; result := v; loading := loading s |}).
Definition setLoading (b : bool) : M State unit :=
  modify (fun s => {| file := file s; result := result s; loading := b |}).

Definition handleSubmit (env : Env) (net : NetResult) : M State unit :=
  emit PreventDefault ;;
  f <- gets file ;;
  match f with
  | SlotNull | SlotUndefined => ret tt
  | SlotFile f =>
      setLoading true ;;
      let formData := FormData.append FormData.empty "file" f in
      try_catch_finally
        (let backendURL := env_or (env "NEXT_PUBLIC_BACKEND_URL") "http://localhost:8000" in
         res <- fetch net (backendURL ++ "/import_tally") "POST" formData ;;
         data <- json res ;;
         setResult data)
        (fun err => console_error err)
        (setLoading false)
  end.

(** The row count the page shows: [result.row_count]. *)
Definition rowCount (result : JS.Value) : JS.Error + JS.Value := JS.get result "row_count".

Definition total_item (kv : string * JS.Value) : Node :=
  Elem "li" [Expr (JS.String (fst kv)); Text ": "; Expr (snd kv)].

Definition render (s : State) : JS.Error + list Node :=
  bind_sum (if JS.truthy (result s) then
    bind_sum (rowCount (result s)) (fun row_count =>
    bind_sum (JS.get (result s) "totals") (fun totals =>
    bind_sum (if JS.truthy totals
              then bind_sum (JS.entries totals) (fun es => inr (List.map total_item es))
              else inr [Expr totals]) (fun items =>
    inr (Elem "div"
           [ Elem "h2" [Text "Summary"];
             Elem "p" [Text "Rows processed: "; Expr row_count];
             Elem "h3" [Text "Totals"];
             Elem "ul" items ]))))
  else inr (Expr (result s))) (fun summary =>
  inr [ and_then (JS.Bool (loading s)) (Elem "p" [Text "Uploading…"]); summary ]).

End TallyDataImport.

(** ** The completion bridge ([pages/api/generate.js]) *)

Module Generate.

Record Request : Type := mkRequest { method : string; body : JS.Value }.

(** The response under construction: [res.status(n)] and [res.json(v)]. *)
Record Res : Type := mkRes { statusCode : Z; sent : option JS.Value }.

Definition fresh : Res := {| statusCode := 200; sent := None |}.

Definition res_status (n : Z) : M Res unit :=
  modify (fun r => {| statusCode := n; sent := sent r |}).
Definition res_json (v : JS.Value) : M Res unit :=
  modify (fun r => {| statusCode := statusCode r; sent := Some v |}).

Definition endpoint (env : Env) : string :=
  env_plus (env "NEXT_PUBLIC_BACKEND_URL") "/generate_reply".

Definition handler (env : Env) (net : AxiosResult) (req : Request) : M Res unit :=
  if negb (method req =? "POST") then
    res_status 405 ;; res_json (JS.Object [("message", JS.String "Method not allowed")])
  else
    prompt <- lift (JS.get (body req) "prompt") ;;
    try_catch
      (data <- axios_post net (endpoint env) (JS.Object [("message", prompt)]) ;;
       r <- lift (JS.get data "reply") ;;
       let reply := JS.or r (JS.String "") in
       res_status 200 ;; res_json (JS.Object [("reply", reply)]))
      (fun error =>
         console_error error ;;
         res_status 500 ;;
         res_json (JS.Object [("message", JS.String "Error generating reply")])).

End Generate.

(** ** Where each page finds the backend *)

Module Endpoints.

Definition default_base : string := "http://localhost:8000".

(** Tasks and Appointments: one [backendURL] per component. *)
Definition tasks (env : Env) : string :=
  env_or (env "NEXT_PUBLIC_BACKEND_URL") "http://localhost:8000" ++ "/tasks".
Definition appointments (env : Env) : string :=
  env_or (env "NEXT_PUBLIC_BACKEND_URL") "http://localhost:8000" ++ "/appointments".

(** Clients: a second variable before the default. *)
Definition clients (env : Env) : string :=
  env_or (env "NEXT_PUBLIC_BACKEND_URL")
         (env_or (env "BACKEND_URL") "http://localhost:8000") ++ "/clients".

Definition gst_notice (env : Env) : string :=
  env_or (env "NEXT_PUBLIC_BACKEND_URL") "http://localhost:8000" ++ "/gst_notice".
Definition import_tally (env : Env) : string :=
  env_or (env "NEXT_PUBLIC_BACKEND_URL") "http://localhost:8000" ++ "/import_tally".

(** No variable is set. *)
Definition unset : Env := fun _ => None.

End Endpoints.

(** ** Vocabulary of the statements *)

(** The exchange ends in an exception: [fetch] rejected, or [res.json()]
    did. *)
Definition exchange_fails (net : NetResult) : bool :=
  match net with
  | NetRejected => true
  | NetResponded r => match body r with BodyJSON _ => false | _ => true end
  | NetPending => false
  end.

(** The exchange ended, one way or the other. *)
Definition settled (net : NetResult) : bool :=
  match net with NetPending => false | _ => true end.

Definition is_2xx (status : Z) : bool := (200 <=? status)%Z && (status <? 300)%Z.

Definition is_throw {A} (c : Completion A) : bool :=
  match c with Throw _ => true | _ => false end.

(** ** Sample states and responses *)

Definition notice_pdf : File := mkFile "notice.pdf" "application/pdf" [].
Definition ledger_csv : File := mkFile "ledger.csv" "text/csv" [].

(** The GST page with a notice chosen and nothing submitted yet. *)
Definition gst_ready : GSTNotice.State :=
  GSTNotice.mkState (SlotFile notice_pdf) [] (JS.String "") (JS.Array []) false.

Definition tally_ready : TallyImport.State :=
  TallyImport.mkState (SlotFile ledger_csv) JS.Null false.

Definition server_error : NetResult :=
  NetResponded (mkResponse 500
    (BodyJSON (JS.Object [("detail", JS.String "Internal Server Error")]))).

Definition tally_data_ready : TallyDataImport.State :=
  TallyDataImport.mkState (SlotFile ledger_csv) JS.Null false.

(** [{ "rows": 42, "totals": { "Debit": 1000.5, "Credit": 1000.5 } }] *)
Definition tabular_example : list (string * JS.Value) :=
  [ ("rows", JS.Number (42 # 1));
    ("totals", JS.Object [ ("Debit", JS.Number (2001 # 2));
                           ("Credit", JS.Number (2001 # 2)) ]) ].

Definition ok (data : JS.Value) : NetResult :=
  NetResponded (mkResponse 200 (BodyJSON data)).

(** ** Choosing files *)

Module Choosers.

(** [e.target.files[0]]: [undefined] when the list is empty. *)
Definition first_file (files : list File) : FileSlot :=
  match files with
  | [] => SlotUndefined
  | f :: _ => SlotFile f
  end.

(** [gst.js] line 51: [onChange] of the notice input. *)
Definition onNoticeChange (files : list File) : M GSTNotice.State unit :=
  GSTNotice.setNoticeFile (first_file files).

(** [gst.js] line 61: [onChange] of the supporting-documents input;
    [Array.from] keeps the order of the file list. *)
Definition onSupportChange (files : list File) : M GSTNotice.State unit :=
  GSTNotice.setSupportFiles files.

(** [handleFileChange] of the Tally import page. *)
Definition handleFileChange (files : list File) : M TallyImport.State unit :=
  TallyImport.setFile (first_file files).

End Choosers.

(** ** The home page (posts to the bridge) *)

Module Home.

Record State : Type := mkState
  { input : string;
    reply : JS.Value }.

Definition initial : State := {| input := ""; reply := JS.String "" |}.

Definition setInput (s : string) : M State unit :=
  modify (fun st => {| input := s; reply := reply st |}).
Definition setReply (v : JS.Value) : M State unit :=
  modify (fun st => {| input := input st; reply := v |}).

(** [{ prompt: input }] *)
Definition payload (text : string) : JS.Value :=
  JS.Object [("prompt", JS.String text)].

Definition failure_text : JS.Value := JS.String "Error generating reply".

Definition handleSubmit (net : AxiosResult) : M State unit :=
  emit PreventDefault ;;
  try_catch
    (text <- gets input ;;
     data <- axios_post net "/api/generate" (payload text) ;;
     r <- lift (JS.get data "reply") ;;
     setReply r)
    (fun error => console_error error ;; setReply failure_text).

(** The block under the form: [{reply && (...)}]. *)
Definition render (s : State) : list Node :=
  [ and_then (reply s) (Elem "div" [Elem "h2" [Text "Reply:"]; Elem "p" [Expr (reply s)]]) ].

End Home.

(** ** The home page talking to the bridge

    What [axios.post('/api/generate', ...)] settles to when the route
    handler ran as [r]: axios resolves with the JSON body of a 2xx answer
    and rejects on any other status; a handler that threw is answered 500
    by the server; a handler that is still waiting has not answered. *)

Module Route.

Definition answer (r : Completion unit * Generate.Res * list Effect) : AxiosResult :=
  match completion r with
  | Suspended => AxiosPending
  | Throw _ => AxiosFailed (JS.HTTPError 500)
  | Normal _ =>
      match Generate.sent (final_state r) with
      | None => AxiosPending
      | Some v =>
          let code := Generate.statusCode (final_state r) in
          if ((200 <=? code)%Z && (code <? 300)%Z)%bool
          then AxiosResolved v
          else AxiosFailed (JS.HTTPError code)
      end
  end.

(** The bridge run that a submission of the home page causes. *)
Definition bridge_run (env : Env) (down : AxiosResult) (text : string)
    : Completion unit * Generate.Res * list Effect :=
  Generate.handler env down (Generate.mkRequest "POST" (Home.payload text)) Generate.fresh.

(** One submission of the home page, served by the bridge, which in turn
    asks the completion endpoint and gets [down]. *)
Definition submit (env : Env) (down : AxiosResult) (st : Home.State)
    : Completion unit * Home.State * list Effect :=
  Home.handleSubmit (answer (bridge_run env down (Home.input st))) st.

End Route.

(** ** The clients page: the form handler *)

Module Clients.

Record State : Type := mkState
  { clients : JS.Value;
    name : string;
    email : string;
    error : string }.

Definition initial : State :=
  {| clients := JS.Array []; name := ""; email := ""; error := "" |}.

Definition setClients (v : JS.Value) : M State unit :=
  modify (fun s => {| clients := v; name := name s; email := email s; error := error s |}).
Definition setName (x : string) : M State unit :=
  modify (fun s => {| clients := clients s; name := x; email := email s; error := error s |}).
Definition setEmail (x : string) : M State unit :=
  modify (fun s => {| clients := clients s; name := name s; email := x; error := error s |}).
Definition setError (x : string) : M State unit :=
  modify (fun s => {| clients := clients s; name := name s; email := email s; error := x |}).

Definition baseURL (env : Env) : string :=
  env_or (env "NEXT_PUBLIC_BACKEND_URL")
         (env_or (env "BACKEND_URL") "http://localhost:8000").

(** [[...v, x]]: only arrays and strings can be spread (a string gives its
    characters); anything else is not iterable. *)
Definition spread_with (v x : JS.Value) : JS.Error + JS.Value :=
  match v with
  | JS.Array xs => inr (JS.Array (xs ++ [x]))
  | JS.String s => inr (JS.Array (JS.chars s ++ [x]))
  | _ => inl JS.TypeError
  end.

(** [{ name, email: email || undefined }] *)
Definition payload (n e : string) : JS.Value :=
  JS.Object [("name", JS.String n); ("email", JS.or (JS.String e) JS.Undefined)].

Definition handleSubmit (env : Env) (net : AxiosResult) : M State unit :=
  emit PreventDefault ;;
  n <- gets name ;;
  if n =? "" then ret tt
  else
    try_catch
      (e <- gets email ;;
       data <- axios_post net (baseURL env ++ "/clients") (payload n e) ;;
       cs <- gets clients ;;
       cs' <- lift (spread_with cs data) ;;
       setClients cs' ;;
       setName "" ;;
       setEmail "" ;;
       setError "")
      (fun err => console_error err ;; setError "Failed to create client").

End Clients.

(** ** More vocabulary *)

Definition axios_settled (net : AxiosResult) : bool :=
  match net with AxiosPending => false | _ => true end.

(** [null] or [undefined]: reading a property of it throws. *)
Definition nullish (v : JS.Value) : bool :=
  match v with JS.Undefined | JS.Null => true | _ => false end.

Definition is_array (v : JS.Value) : bool :=
  match v with JS.Array _ => true | _ => false end.

(** The block of the GST page that lists missing documents. *)
Definition missing_block (xs : list JS.Value) : Node :=
  match xs with
  | [] => Expr (JS.Bool false)
  | _ => Elem "div" [ Elem "h2" [Text "Missing Documents"];
                      Elem "ul" (map (fun d => Elem "li" [Expr d]) xs) ]
  end.

(** What makes the caller of [axios.post] take its error branch when it
    reads [data.reply]: the call was rejected, or it resolved with nothing
    to read a property from. *)
Definition axios_error (net : AxiosResult) : option JS.Error :=
  match net with
  | AxiosFailed e => Some e
  | AxiosResolved d => if nullish d then Some JS.TypeError else None
  | AxiosPending => None
  end.

(** What [[...v]] accepts. *)
Definition iterable (v : JS.Value) : bool :=
  match v with JS.Array _ | JS.String _ => true | _ => false end.

Definition is_object (v : JS.Value) : bool :=
  match v with JS.Object _ => true | _ => false end.

(** * Properties *)

(** ** Form data *)

Lemma getAll_app (a b : FormData.t) (name : string) :
  FormData.getAll (a ++ b) name = FormData.getAll a name ++ FormData.getAll b name.
Proof.
  unfold FormData.getAll. now rewrite filter_app, map_app.
Qed.

Lemma getAll_same (name : string) (fs : list File) :
  FormData.getAll (map (pair name) fs) name = fs.
Proof.
  unfold FormData.getAll.
  induction fs as [|f fs IH]; simpl; [reflexivity|].
  rewrite String.eqb_refl. simpl. now rewrite IH.
Qed.

Lemma getAll_other (name other : string) (fs : list File) :
  (other =? name) = false ->
  FormData.getAll (map (pair other) fs) name = [].
Proof.
  intros Hne. unfold FormData.getAll.
  induction fs as [|f fs IH]; simpl; [reflexivity|].
  now rewrite Hne.
Qed.

Lemma append_all (name : string) (fs : list File) (fd : FormData.t) :
  fold_left (fun acc file => FormData.append acc name file) fs fd
  = fd ++ map (pair name) fs.
Proof.
  revert fd. induction fs as [|f fs IH]; intros fd; simpl.
  - now rewrite app_nil_r.
  - rewrite IH. unfold FormData.append. now rewrite <- app_assoc.
Qed.

Lemma encode_eq (notice : File) (support : list File) :
  GSTNotice.encode notice support
  = ("notice", notice) :: map (pair "additional_documents") support.
Proof.
  unfold GSTNotice.encode. now rewrite append_all.
Qed.

Lemma handleSubmit_sends (notice : File) (support : list File) (env : Env)
    (net : NetResult) (r m : JS.Value) (l : bool) :
  filter is_network
    (effects (GSTNotice.handleSubmit env net
                (GSTNotice.mkState (SlotFile notice) support r m l)))
  = [Fetch (Endpoints.gst_notice env) "POST" (GSTNotice.encode notice support)].
Proof.
  destruct net as [|[s [d| |]]|]; try reflexivity.
  destruct d as [| | | | | |props]; reflexivity.
Qed.

(** C2: the form data of a GST submission holds the primary file once,
    under [notice], and every supporting file under [additional_documents],
    as many as were chosen and in the order they were chosen; it is the body
    of the one request the handler sends. *)
Theorem encode_one_notice_then_documents
    (notice : File) (support : list File) (env : Env) (net : NetResult)
    (r m : JS.Value) (l : bool) :
  let fd := GSTNotice.encode notice support in
  FormData.getAll fd "notice" = [notice] /\
  FormData.getAll fd "additional_documents" = support /\
  List.length (FormData.getAll fd "additional_documents") = List.length support /\
  List.length fd = 1 + List.length support /\
  filter is_network
    (effects (GSTNotice.handleSubmit env net
                (GSTNotice.mkState (SlotFile notice) support r m l)))
  = [Fetch (Endpoints.gst_notice env) "POST" fd].
Proof.
  cbv zeta. split; [|split; [|split; [|split]]].
  5: apply handleSubmit_sends.
  all: rewrite encode_eq;
    change (("notice", notice) :: map (pair "additional_documents") support)
      with ([("notice", notice)] ++ map (pair "additional_documents") support).
  - rewrite getAll_app, (getAll_other "notice" "additional_documents") by reflexivity.
    reflexivity.
  - rewrite getAll_app, getAll_same. reflexivity.
  - rewrite getAll_app, getAll_same. reflexivity.
  - rewrite length_app, length_map. reflexivity.
Qed.

(** ** Submitting without a file *)

(** C3: when no primary file is selected (the slot is [null] or
    [undefined]) the handler stops after [preventDefault]: nothing is sent
    and the state, [loading] included, is what it was.  The same for the
    GST page and for both Tally pages. *)
Theorem no_file_no_request (env : Env) (net : NetResult) :
  (forall st, slot_truthy (GSTNotice.noticeFile st) = false ->
     GSTNotice.handleSubmit env net st = (Normal tt, st, [PreventDefault])) /\
  (forall st, slot_truthy (TallyImport.file st) = false ->
     TallyImport.handleSubmit env net st = (Normal tt, st, [PreventDefault])) /\
  (forall st, slot_truthy (TallyDataImport.file st) = false ->
     TallyDataImport.handleSubmit env net st = (Normal tt, st, [PreventDefault])).
Proof.
  repeat split; intros [slot ?] H; simpl in H;
    destruct slot; try discriminate H; reflexivity.
Qed.

Lemma no_file_no_request_witness :
  slot_truthy (GSTNotice.noticeFile GSTNotice.initial) = false /\
  filter is_network
    (effects (GSTNotice.handleSubmit Endpoints.unset NetRejected GSTNotice.initial)) = [] /\
  GSTNotice.loading
    (final_state (GSTNotice.handleSubmit Endpoints.unset NetRejected GSTNotice.initial)) = false.
Proof.
  split; [reflexivity|].
  rewrite (proj1 (no_file_no_request Endpoints.unset NetRejected) GSTNotice.initial);
    [split; reflexivity | reflexivity].
Defined.

(** ** A failed resubmission on the GST page *)

(** C9: when [fetch] or [res.json()] throws, the GST handler leaves [reply]
    and [missing] (and the chosen files) as they were; of the state only
    [loading] is written, and it ends [false]. *)
Theorem failed_submission_keeps_result
    (env : Env) (net : NetResult) (st : GSTNotice.State) :
  exchange_fails net = true ->
  let st' := final_state (GSTNotice.handleSubmit env net st) in
  GSTNotice.reply st' = GSTNotice.reply st /\
  GSTNotice.missing st' = GSTNotice.missing st /\
  st' = GSTNotice.mkState (GSTNotice.noticeFile st) (GSTNotice.supportFiles st)
          (GSTNotice.reply st) (GSTNotice.missing st)
          (if slot_truthy (GSTNotice.noticeFile st) then false else GSTNotice.loading st).
Proof.
  intros Hf. destruct st as [slot support r m l].
  destruct net as [|[s [d| |]]|]; try discriminate Hf;
    destruct slot; repeat split; reflexivity.
Qed.

(** The same whenever the error branch runs, also for a [null] body, on
    which [data.reply] throws before anything is stored. *)
Lemma catch_keeps_result (env : Env) (net : NetResult) (st : GSTNotice.State) :
  let r := GSTNotice.handleSubmit env net st in
  took_catch (effects r) = true ->
  GSTNotice.reply (final_state r) = GSTNotice.reply st /\
  GSTNotice.missing (final_state r) = GSTNotice.missing st.
Proof.
  destruct st as [slot support r m l]. cbv zeta.
  destruct slot; try (intros H; discriminate H).
  destruct net as [|[s [d| |]]|]; try (intros H; discriminate H);
    try (intros _; split; reflexivity).
  destruct d; intros H; try discriminate H; split; reflexivity.
Qed.

Lemma failed_submission_keeps_result_witness :
  let st := GSTNotice.mkState (SlotFile (mkFile "notice.pdf" "application/pdf" []))
              [] (JS.String "Dear Sir...") (JS.Array [JS.String "PAN card"]) false in
  let st' := final_state (GSTNotice.handleSubmit Endpoints.unset NetRejected st) in
  GSTNotice.reply st' = JS.String "Dear Sir..." /\
  GSTNotice.missing st' = JS.Array [JS.String "PAN card"].
Proof.
  intros st st'.
  destruct (failed_submission_keeps_result Endpoints.unset NetRejected st eq_refl)
    as (Hr & Hm & _).
  split; [exact Hr | exact Hm].
Defined.

(** ** The completion bridge *)

(** C10: a request whose method is not [POST] is answered with status 405
    and the body [{ message: 'Method not allowed' }], and nothing is sent
    downstream. *)
Theorem not_post_is_405
    (env : Env) (net : AxiosResult) (req : Generate.Request) (res0 : Generate.Res) :
  (Generate.method req =? "POST") = false ->
  Generate.handler env net req res0
  = (Normal tt,
     Generate.mkRes 405 (Some (JS.Object [("message", JS.String "Method not allowed")])),
     []).
Proof.
  intros H. unfold Generate.handler. rewrite H. reflexivity.
Qed.

Lemma not_post_is_405_witness :
  effects (Generate.handler Endpoints.unset (AxiosResolved JS.Null)
             (Generate.mkRequest "GET" JS.Undefined) Generate.fresh) = [] /\
  Generate.statusCode
    (final_state (Generate.handler Endpoints.unset (AxiosResolved JS.Null)
                    (Generate.mkRequest "GET" JS.Undefined) Generate.fresh)) = 405%Z.
Proof.
  rewrite (not_post_is_405 Endpoints.unset (AxiosResolved JS.Null)
             (Generate.mkRequest "GET" JS.Undefined) Generate.fresh eq_refl).
  split; reflexivity.
Defined.

Lemma or_string_default (s : string) :
  JS.or (JS.String s) (JS.String "") = JS.String s.
Proof.
  unfold JS.or. simpl. destruct (String.eqb_spec s ""); subst; reflexivity.
Qed.

(** C8: for a [POST] whose body carries [prompt], the bridge posts exactly
    [{ message: prompt }] to the completion endpoint; when that call
    resolves with data whose [reply] is [r], it answers 200 with
    [{ reply: r || '' }]: the downstream string itself when [reply] is a
    string, the empty string when [reply] is absent. *)
Theorem bridge_forwards_prompt
    (env : Env) (req : Generate.Request) (prompt : JS.Value) (res0 : Generate.Res) :
  Generate.method req = "POST" ->
  JS.get (Generate.body req) "prompt" = inr prompt ->
  let sent_down := AxiosPost (Generate.endpoint env) (JS.Object [("message", prompt)]) in
  (forall net, filter is_network (effects (Generate.handler env net req res0)) = [sent_down]) /\
  (forall data r, JS.get data "reply" = inr r ->
     Generate.handler env (AxiosResolved data) req res0
     = (Normal tt,
        Generate.mkRes 200 (Some (JS.Object [("reply", JS.or r (JS.String ""))])),
        [sent_down])) /\
  (forall props s, JS.lookup "reply" props = Some (JS.String s) ->
     final_state (Generate.handler env (AxiosResolved (JS.Object props)) req res0)
     = Generate.mkRes 200 (Some (JS.Object [("reply", JS.String s)]))) /\
  (forall props, JS.lookup "reply" props = None ->
     final_state (Generate.handler env (AxiosResolved (JS.Object props)) req res0)
     = Generate.mkRes 200 (Some (JS.Object [("reply", JS.String "")]))).
Proof.
  intros Hm Hp sent_down.
  assert (Hres : forall data r, JS.get data "reply" = inr r ->
     Generate.handler env (AxiosResolved data) req res0
     = (Normal tt,
        Generate.mkRes 200 (Some (JS.Object [("reply", JS.or r (JS.String ""))])),
        [sent_down])).
  { intros data r Hr. unfold Generate.handler. rewrite Hm, Hp. simpl.
    unfold bind, try_catch, axios_post, lift. simpl. rewrite Hr. reflexivity. }
  split; [|split; [exact Hres|split]].
  - intros net. unfold Generate.handler. rewrite Hm, Hp. simpl.
    unfold bind, try_catch, axios_post, lift. simpl.
    destruct net as [e|data|]; try reflexivity.
    destruct (JS.get data "reply"); reflexivity.
  - intros props s Hl.
    rewrite (Hres (JS.Object props) (JS.String s)) by (simpl; unfold JS.prop; now rewrite Hl).
    unfold final_state. simpl. now rewrite or_string_default.
  - intros props Hl.
    rewrite (Hres (JS.Object props) JS.Undefined) by (simpl; unfold JS.prop; now rewrite Hl).
    reflexivity.
Qed.

Lemma bridge_forwards_prompt_witness :
  let req := Generate.mkRequest "POST" (JS.Object [("prompt", JS.String "Hello, CA Suite!")]) in
  Generate.handler (fun _ => Some "http://backend")
    (AxiosResolved (JS.Object [("reply", JS.String "Dear Sir...")])) req Generate.fresh
  = (Normal tt,
     Generate.mkRes 200 (Some (JS.Object [("reply", JS.String "Dear Sir...")])),
     [AxiosPost "http://backend/generate_reply"
        (JS.Object [("message", JS.String "Hello, CA Suite!")])]).
Proof.
  intros req.
  exact (proj1 (proj2 (bridge_forwards_prompt (fun _ => Some "http://backend") req
                         (JS.String "Hello, CA Suite!") Generate.fresh eq_refl eq_refl))
           (JS.Object [("reply", JS.String "Dear Sir...")]) (JS.String "Dear Sir...") eq_refl).
Defined.

(** ** How a submission ends *)

Lemma gst_settled (env : Env) (net : NetResult) (st : GSTNotice.State) (f : File) :
  GSTNotice.noticeFile st = SlotFile f ->
  settled net = true ->
  let r := GSTNotice.handleSubmit env net st in
  GSTNotice.loading (final_state r) = false /\
  completion r = Normal tt /\
  (exchange_fails net = true -> took_catch (effects r) = true).
Proof.
  destruct st as [slot support r m l]. simpl. intros -> Hs.
  destruct net as [|[s [d| |]]|]; try discriminate Hs; try (repeat split; reflexivity).
  destruct d; repeat split; try reflexivity; intros Hx; discriminate Hx.
Qed.

Lemma tally_settled (env : Env) (net : NetResult) (st : TallyImport.State) (f : File) :
  TallyImport.file st = SlotFile f ->
  settled net = true ->
  let r := TallyImport.handleSubmit env net st in
  TallyImport.loading (final_state r) = false /\
  completion r = Normal tt /\
  (exchange_fails net = true ->
     took_catch (effects r) = true /\
     TallyImport.result (final_state r) = TallyImport.failure_message).
Proof.
  destruct st as [slot res l]. simpl. intros -> Hs.
  destruct net as [|[s [d| |]]|]; try discriminate Hs;
    (split; [reflexivity | split; [reflexivity |]]);
    intros Hx; try discriminate Hx; split; reflexivity.
Qed.

Lemma tally_data_settled (env : Env) (net : NetResult) (st : TallyDataImport.State) (f : File) :
  TallyDataImport.file st = SlotFile f ->
  settled net = true ->
  let r := TallyDataImport.handleSubmit env net st in
  TallyDataImport.loading (final_state r) = false /\
  completion r = Normal tt /\
  (exchange_fails net = true -> took_catch (effects r) = true).
Proof.
  destruct st as [slot res l]. simpl. intros -> Hs.
  destruct net as [|[s [d| |]]|]; try discriminate Hs;
    repeat split; try reflexivity; try (intros Hx; discriminate Hx).
Qed.

(** While the exchange is pending the page stays in its loading state. *)
Lemma pending_is_loading (env : Env) (st : GSTNotice.State) (f : File) :
  GSTNotice.noticeFile st = SlotFile f ->
  let r := GSTNotice.handleSubmit env NetPending st in
  GSTNotice.loading (final_state r) = true /\ completion r = Suspended.
Proof.
  destruct st as [slot support r m l]. simpl. intros ->. split; reflexivity.
Qed.

(** The status of the response is never read. *)
Lemma gst_status_ignored (env : Env) (b : Body) (s s' : Z) (st : GSTNotice.State) :
  GSTNotice.handleSubmit env (NetResponded (mkResponse s b)) st
  = GSTNotice.handleSubmit env (NetResponded (mkResponse s' b)) st.
Proof. reflexivity. Qed.

Lemma tally_status_ignored (env : Env) (b : Body) (s s' : Z) (st : TallyImport.State) :
  TallyImport.handleSubmit env (NetResponded (mkResponse s b)) st
  = TallyImport.handleSubmit env (NetResponded (mkResponse s' b)) st.
Proof. reflexivity. Qed.

(** C5, as stated, fails: a response with status 500 and a JSON body does
    not take the GST handler to its error branch; it is stored like a
    success ([reply] becomes [undefined], [missing] the empty array). *)
Lemma non_2xx_is_not_failed :
  ~ (forall env st f status b,
       GSTNotice.noticeFile st = SlotFile f ->
       is_2xx status = false ->
       took_catch
         (effects (GSTNotice.handleSubmit env (NetResponded (mkResponse status b)) st))
       = true) /\
  GSTNotice.handleSubmit Endpoints.unset server_error gst_ready
  = (Normal tt,
     GSTNotice.mkState (SlotFile notice_pdf) [] JS.Undefined (JS.Array []) false,
     [PreventDefault;
      Fetch "http://localhost:8000/gst_notice" "POST" [("notice", notice_pdf)]]).
Proof.
  split; [|reflexivity].
  intros H.
  specialize (H Endpoints.unset gst_ready notice_pdf 500%Z
                (BodyJSON (JS.Object [("detail", JS.String "Internal Server Error")]))
                eq_refl eq_refl).
  discriminate H.
Qed.

(** C5, amended: once the exchange has settled (whatever the status, and
    also when [fetch] or [res.json()] threw) the handler has run to its end
    and [loading] is [false]; a rejected [fetch] and an unreadable body take
    the error branch, which on the Tally page stores
    [{ error: 'Failed to import file' }]; the status is not read, so a
    non-2xx response with a JSON body is handled as any other response. *)
Theorem settled_exchange_ends_loading (env : Env) (net : NetResult) :
  settled net = true ->
  (forall st f, GSTNotice.noticeFile st = SlotFile f ->
     let r := GSTNotice.handleSubmit env net st in
     GSTNotice.loading (final_state r) = false /\
     completion r = Normal tt /\
     (exchange_fails net = true -> took_catch (effects r) = true)) /\
  (forall st f, TallyImport.file st = SlotFile f ->
     let r := TallyImport.handleSubmit env net st in
     TallyImport.loading (final_state r) = false /\
     completion r = Normal tt /\
     (exchange_fails net = true ->
        took_catch (effects r) = true /\
        TallyImport.result (final_state r) = TallyImport.failure_message)) /\
  (forall b s st,
     GSTNotice.handleSubmit env (NetResponded (mkResponse s b)) st
     = GSTNotice.handleSubmit env (NetResponded (mkResponse 200 b)) st) /\
  (forall b s st,
     TallyImport.handleSubmit env (NetResponded (mkResponse s b)) st
     = TallyImport.handleSubmit env (NetResponded (mkResponse 200 b)) st).
Proof.
  intros Hs. split; [|split; [|split]].
  - intros st f Hf. exact (gst_settled env net st f Hf Hs).
  - intros st f Hf. exact (tally_settled env net st f Hf Hs).
  - intros b s st. apply gst_status_ignored.
  - intros b s st. apply tally_status_ignored.
Qed.

Lemma settled_exchange_ends_loading_witness :
  settled NetRejected = true /\
  TallyImport.loading
    (final_state (TallyImport.handleSubmit Endpoints.unset NetRejected tally_ready)) = false /\
  TallyImport.result
    (final_state (TallyImport.handleSubmit Endpoints.unset NetRejected tally_ready))
  = TallyImport.failure_message.
Proof.
  split; [reflexivity|].
  destruct (settled_exchange_ends_loading Endpoints.unset NetRejected eq_refl)
    as (_ & Ht & _).
  destruct (Ht tally_ready ledger_csv eq_refl) as (Hl & _ & He).
  split; [exact Hl | exact (proj2 (He eq_refl))].
Defined.

(** ** Errors at the submission boundary *)

Lemma gst_never_throws (env : Env) (net : NetResult) (st : GSTNotice.State) :
  is_throw (completion (GSTNotice.handleSubmit env net st)) = false.
Proof.
  destruct st as [slot support r m l].
  destruct slot; try reflexivity.
  destruct net as [|[s [d| |]]|]; try reflexivity.
  destruct d; reflexivity.
Qed.

Lemma tally_never_throws (env : Env) (net : NetResult) (st : TallyImport.State) :
  is_throw (completion (TallyImport.handleSubmit env net st)) = false.
Proof.
  destruct st as [slot res l].
  destruct slot; try reflexivity.
  destruct net as [|[s [d| |]]|]; reflexivity.
Qed.

Lemma tally_data_never_throws (env : Env) (net : NetResult) (st : TallyDataImport.State) :
  is_throw (completion (TallyDataImport.handleSubmit env net st)) = false.
Proof.
  destruct st as [slot res l].
  destruct slot; try reflexivity.
  destruct net as [|[s [d| |]]|]; reflexivity.
Qed.

Lemma tally_failure_is_shown (l : bool) (slot : FileSlot) :
  TallyImport.render (TallyImport.mkState slot TallyImport.failure_message l)
  = inr [ Elem "div" [ Elem "h2" [Text "Summary"];
                       Elem "p" [Expr (JS.String "Failed to import file")];
                       Expr (JS.Bool false);
                       Expr JS.Undefined ] ].
Proof. reflexivity. Qed.

(** C6, as stated, fails: on the GST page neither a submission without a
    file nor one whose [fetch] is rejected puts anything on the page; after
    either, every node of the result area is blank. *)
Lemma gst_errors_show_nothing :
  ~ (forall env net st,
       exchange_fails net = true ->
       exists view,
         GSTNoticeView.render (final_state (GSTNotice.handleSubmit env net st)) = inr view /\
         shows_something view = true) /\
  GSTNoticeView.render
    (final_state (GSTNotice.handleSubmit Endpoints.unset NetRejected gst_ready))
  = inr [Expr (JS.Bool false); Expr (JS.Bool false); Expr (JS.String "")] /\
  GSTNoticeView.render
    (final_state (GSTNotice.handleSubmit Endpoints.unset NetRejected GSTNotice.initial))
  = inr [Expr (JS.Bool false); Expr (JS.Bool false); Expr (JS.String "")].
Proof.
  split; [|split; reflexivity].
  intros H.
  destruct (H Endpoints.unset NetRejected gst_ready eq_refl) as (view & Hv & Hs).
  change (GSTNoticeView.render
            (final_state (GSTNotice.handleSubmit Endpoints.unset NetRejected gst_ready)))
    with (@inr JS.Error _ [Expr (JS.Bool false); Expr (JS.Bool false); Expr (JS.String "")])
    in Hv.
  injection Hv as <-. discriminate Hs.
Qed.

(** C6, amended: no error leaves a submit handler (it completes, or is
    still waiting); a rejected [fetch] or an unreadable body is caught and
    logged; only the Tally import page then shows a message, the stored
    [{ error: 'Failed to import file' }]; a submission without a file ends
    silently. *)
Theorem errors_are_caught (env : Env) (net : NetResult) :
  (forall st, is_throw (completion (GSTNotice.handleSubmit env net st)) = false) /\
  (forall st, is_throw (completion (TallyImport.handleSubmit env net st)) = false) /\
  (forall st, is_throw (completion (TallyDataImport.handleSubmit env net st)) = false) /\
  (forall st f, GSTNotice.noticeFile st = SlotFile f -> exchange_fails net = true ->
     took_catch (effects (GSTNotice.handleSubmit env net st)) = true) /\
  (forall st f, TallyDataImport.file st = SlotFile f -> exchange_fails net = true ->
     took_catch (effects (TallyDataImport.handleSubmit env net st)) = true) /\
  (forall st f, TallyImport.file st = SlotFile f -> exchange_fails net = true ->
     let r := TallyImport.handleSubmit env net st in
     took_catch (effects r) = true /\
     TallyImport.result (final_state r) = TallyImport.failure_message /\
     TallyImport.render (final_state r)
     = inr [ Elem "div" [ Elem "h2" [Text "Summary"];
                          Elem "p" [Expr (JS.String "Failed to import file")];
                          Expr (JS.Bool false);
                          Expr JS.Undefined ] ]).
Proof.
  split; [exact (gst_never_throws env net)|].
  split; [exact (tally_never_throws env net)|].
  split; [exact (tally_data_never_throws env net)|].
  assert (Hs : exchange_fails net = true -> settled net = true)
    by (destruct net; intros Hx; try discriminate Hx; reflexivity).
  split; [|split].
  - intros st f Hf He. exact (proj2 (proj2 (gst_settled env net st f Hf (Hs He))) He).
  - intros st f Hf He. exact (proj2 (proj2 (tally_data_settled env net st f Hf (Hs He))) He).
  - intros st f Hf He.
    destruct (tally_settled env net st f Hf (Hs He)) as (_ & _ & Hc).
    destruct (Hc He) as (Hc1 & Hc2). cbv zeta.
    split; [exact Hc1 | split; [exact Hc2 |]].
    destruct (final_state (TallyImport.handleSubmit env net st)) as [slot' res' l'].
    simpl in Hc2. subst res'. apply tally_failure_is_shown.
Qed.

Lemma errors_are_caught_witness :
  TallyImport.file tally_ready = SlotFile ledger_csv /\
  exchange_fails (NetResponded (mkResponse 200 BodyMalformed)) = true /\
  TallyImport.result
    (final_state (TallyImport.handleSubmit Endpoints.unset
                    (NetResponded (mkResponse 200 BodyMalformed)) tally_ready))
  = TallyImport.failure_message.
Proof.
  split; [reflexivity | split; [reflexivity|]].
  destruct (errors_are_caught Endpoints.unset (NetResponded (mkResponse 200 BodyMalformed)))
    as (_ & _ & _ & _ & _ & Ht).
  exact (proj1 (proj2 (Ht tally_ready ledger_csv eq_refl eq_refl))).
Defined.

(** ** The notice response *)

(** What the GST handler stores from an object response: [reply] as it
    is, [missing_documents] unless it is falsy. *)
Lemma gst_stores_fields (env : Env) (status : Z) (props : list (string * JS.Value))
    (f : File) (support : list File) (r m : JS.Value) (l : bool) :
  final_state
    (GSTNotice.handleSubmit env
       (NetResponded (mkResponse status (BodyJSON (JS.Object props))))
       (GSTNotice.mkState (SlotFile f) support r m l))
  = GSTNotice.mkState (SlotFile f) support
      (JS.prop props "reply")
      (JS.or (JS.prop props "missing_documents") (JS.Array []))
      false.
Proof. reflexivity. Qed.

Lemma gst_reply_present (props : list (string * JS.Value)) (v : JS.Value) :
  JS.lookup "reply" props = Some v -> JS.prop props "reply" = v.
Proof. unfold JS.prop. now intros ->. Qed.


Lemma gst_missing_absent (props : list (string * JS.Value)) :
  JS.lookup "missing_documents" props = None ->
  JS.or (JS.prop props "missing_documents") (JS.Array []) = JS.Array [].
Proof. unfold JS.prop. now intros ->. Qed.

Lemma gst_reply_absent (props : list (string * JS.Value)) :
  JS.lookup "reply" props = None -> JS.prop props "reply" = JS.Undefined.
Proof. unfold JS.prop. now intros ->. Qed.

(** C1 at a response without [reply]: the handler stores [undefined] as
    the narrative, not the empty string; [missing_documents] is kept, and
    nothing is thrown. *)
Theorem absent_reply_is_stored_undefined :
  let data := JS.Object [("missing_documents", JS.Array [JS.String "PAN card"])] in
  let r := GSTNotice.handleSubmit Endpoints.unset (ok data) gst_ready in
  JS.has data "reply" = false /\
  GSTNotice.reply (final_state r) = JS.Undefined /\
  GSTNotice.reply (final_state r) <> JS.String "" /\
  GSTNotice.missing (final_state r) = JS.Array [JS.String "PAN card"] /\
  took_catch (effects r) = false.
Proof.
  cbv zeta. repeat split; try reflexivity. discriminate.
Qed.

(** ** The tabular response *)

Lemma set_fresh (props : list (string * JS.Value)) (k : string) (v : JS.Value) :
  ~ In k (map fst props) -> JS.set props k v = props ++ [(k, v)].
Proof.
  induction props as [|[k' v'] rest IH]; simpl; intros Hn; [reflexivity|].
  destruct (String.eqb_spec k' k) as [->|Hne].
  - exfalso. apply Hn. now left.
  - rewrite IH; [reflexivity|]. intros Hin. apply Hn. now right.
Qed.

Lemma set_all_fresh (pairs acc : list (string * JS.Value)) :
  NoDup (map fst (acc ++ pairs)) ->
  fold_left (fun props kv => JS.set props (fst kv) (snd kv)) pairs acc = acc ++ pairs.
Proof.
  revert acc. induction pairs as [|[k v] rest IH]; intros acc Hnd; simpl.
  - now rewrite app_nil_r.
  - assert (Hfresh : ~ In k (map fst acc)).
    { rewrite map_app in Hnd. simpl in Hnd.
      apply NoDup_remove_2 in Hnd. intros Hin. apply Hnd.
      apply in_or_app. now left. }
    rewrite (set_fresh acc k v Hfresh).
    rewrite IH; rewrite <- app_assoc; [reflexivity | exact Hnd].
Qed.

(** Rebuilding an object from its entries gives the object back. *)
Lemma fromEntries_entries (t : list (string * JS.Value)) :
  NoDup (map fst t) -> JS.fromEntries t = JS.Object t.
Proof.
  intros Hnd. unfold JS.fromEntries. now rewrite (set_all_fresh t []).
Qed.

Lemma get_totals (props t : list (string * JS.Value)) :
  JS.lookup "totals" props = Some (JS.Object t) ->
  JS.prop props "totals" = JS.Object t.
Proof. unfold JS.prop. now intros ->. Qed.

Lemma tally_renders (props t : list (string * JS.Value)) (slot : FileSlot) (l : bool) :
  JS.lookup "totals" props = Some (JS.Object t) ->
  TallyImport.render (TallyImport.mkState slot (JS.Object props) l)
  = inr [ Elem "div"
            [ Elem "h2" [Text "Summary"];
              and_then (JS.prop props "error") (Elem "p" [Expr (JS.prop props "error")]);
              and_then (JS.Bool (JS.not_undefined (JS.prop props "rows")))
                       (Elem "p" [Text "Rows: "; Expr (JS.prop props "rows")]);
              Elem "div" [ Elem "h3" [Text "Totals"];
                           Elem "ul" (map TallyImport.total_item t) ] ] ].
Proof.
  intros Ht. unfold TallyImport.render, TallyImport.rowCount. simpl.
  rewrite (get_totals props t Ht). reflexivity.
Qed.

Lemma tally_data_renders (props t : list (string * JS.Value)) (slot : FileSlot) :
  JS.lookup "totals" props = Some (JS.Object t) ->
  TallyDataImport.render (TallyDataImport.mkState slot (JS.Object props) false)
  = inr [ Expr (JS.Bool false);
          Elem "div"
            [ Elem "h2" [Text "Summary"];
              Elem "p" [Text "Rows processed: "; Expr (JS.prop props "row_count")];
              Elem "h3" [Text "Totals"];
              Elem "ul" (map TallyDataImport.total_item t) ] ].
Proof.
  intros Ht. unfold TallyDataImport.render, TallyDataImport.rowCount. simpl.
  rewrite (get_totals props t Ht). reflexivity.
Qed.

(** C4, as stated, fails on the second Tally page: it reads [row_count],
    so for the response [{ rows: 42, totals: ... }] the row count it shows
    is [undefined]. *)
Lemma row_count_page_ignores_rows :
  ~ (forall props v,
       JS.lookup "rows" props = Some v ->
       TallyDataImport.rowCount (JS.Object props) = inr v) /\
  TallyDataImport.render
    (final_state (TallyDataImport.handleSubmit Endpoints.unset
                    (ok (JS.Object tabular_example)) tally_data_ready))
  = inr [ Expr (JS.Bool false);
          Elem "div"
            [ Elem "h2" [Text "Summary"];
              Elem "p" [Text "Rows processed: "; Expr JS.Undefined];
              Elem "h3" [Text "Totals"];
              Elem "ul"
                [ Elem "li" [Expr (JS.String "Debit"); Text ": "; Expr (JS.Number (2001 # 2))];
                  Elem "li" [Expr (JS.String "Credit"); Text ": "; Expr (JS.Number (2001 # 2))] ] ] ].
Proof.
  split; [|reflexivity].
  intros H. specialize (H tabular_example (JS.Number (42 # 1)) eq_refl).
  discriminate H.
Qed.

(** C4, amended: both Tally pages keep the response object itself as the
    result.  The first shows [rows] as the row count, the second shows
    [row_count] (and not [rows]).  Both list the entries of [totals] as
    they are, names and values, in the object's order, and an object
    rebuilt from these entries is [totals] again. *)
Theorem tally_totals_pass_through
    (env : Env) (status : Z) (props t : list (string * JS.Value)) :
  JS.lookup "totals" props = Some (JS.Object t) ->
  NoDup (map fst t) ->
  let net := NetResponded (mkResponse status (BodyJSON (JS.Object props))) in
  (forall f res l,
     let st' := final_state (TallyImport.handleSubmit env net
                               (TallyImport.mkState (SlotFile f) res l)) in
     TallyImport.result st' = JS.Object props /\
     (forall v, JS.lookup "rows" props = Some v ->
                TallyImport.rowCount (TallyImport.result st') = inr v) /\
     TallyImport.render st'
     = inr [ Elem "div"
               [ Elem "h2" [Text "Summary"];
                 and_then (JS.prop props "error") (Elem "p" [Expr (JS.prop props "error")]);
                 and_then (JS.Bool (JS.not_undefined (JS.prop props "rows")))
                          (Elem "p" [Text "Rows: "; Expr (JS.prop props "rows")]);
                 Elem "div" [ Elem "h3" [Text "Totals"];
                              Elem "ul" (map TallyImport.total_item t) ] ] ]) /\
  (forall f res l,
     let st' := final_state (TallyDataImport.handleSubmit env net
                               (TallyDataImport.mkState (SlotFile f) res l)) in
     TallyDataImport.result st' = JS.Object props /\
     (forall v, JS.lookup "row_count" props = Some v ->
                TallyDataImport.rowCount (TallyDataImport.result st') = inr v) /\
     TallyDataImport.render st'
     = inr [ Expr (JS.Bool false);
             Elem "div"
               [ Elem "h2" [Text "Summary"];
                 Elem "p" [Text "Rows processed: "; Expr (JS.prop props "row_count")];
                 Elem "h3" [Text "Totals"];
                 Elem "ul" (map TallyDataImport.total_item t) ] ]) /\
  JS.entries (JS.prop props "totals") = inr t /\
  JS.fromEntries t = JS.prop props "totals".
Proof.
  intros Ht Hnd net. split; [|split; [|split]].
  - intros f res l. cbv zeta.
    change (final_state (TallyImport.handleSubmit env net
                           (TallyImport.mkState (SlotFile f) res l)))
      with (TallyImport.mkState (SlotFile f) (JS.Object props) false).
    split; [reflexivity | split].
    + intros v Hv. simpl. unfold TallyImport.rowCount, JS.get, JS.prop. now rewrite Hv.
    + apply tally_renders. exact Ht.
  - intros f res l. cbv zeta.
    change (final_state (TallyDataImport.handleSubmit env net
                           (TallyDataImport.mkState (SlotFile f) res l)))
      with (TallyDataImport.mkState (SlotFile f) (JS.Object props) false).
    split; [reflexivity | split].
    + intros v Hv. simpl. unfold TallyDataImport.rowCount, JS.get, JS.prop. now rewrite Hv.
    + apply tally_data_renders. exact Ht.
  - rewrite (get_totals props t Ht). reflexivity.
  - rewrite (get_totals props t Ht). apply fromEntries_entries. exact Hnd.
Qed.

Lemma tally_totals_pass_through_witness :
  let st' := final_state (TallyImport.handleSubmit Endpoints.unset
                            (ok (JS.Object tabular_example)) tally_ready) in
  TallyImport.rowCount (TallyImport.result st') = inr (JS.Number (42 # 1)) /\
  TallyImport.render st'
  = inr [ Elem "div"
            [ Elem "h2" [Text "Summary"];
              Expr JS.Undefined;
              Elem "p" [Text "Rows: "; Expr (JS.Number (42 # 1))];
              Elem "div"
                [ Elem "h3" [Text "Totals"];
                  Elem "ul"
                    [ Elem "li" [Expr (JS.String "Debit"); Text ": "; Expr (JS.Number (2001 # 2))];
                      Elem "li" [Expr (JS.String "Credit"); Text ": "; Expr (JS.Number (2001 # 2))] ] ] ] ].
Proof.
  assert (Hnd : NoDup (map fst [ ("Debit", JS.Number (2001 # 2));
                                 ("Credit", JS.Number (2001 # 2)) ])).
  { simpl. constructor.
    - intros [H|[]]. discriminate H.
    - constructor; [intros [] | constructor]. }
  destruct (tally_totals_pass_through Endpoints.unset 200 tabular_example
              [ ("Debit", JS.Number (2001 # 2)); ("Credit", JS.Number (2001 # 2)) ]
              eq_refl Hnd) as (H1 & _).
  destruct (H1 ledger_csv JS.Null false) as (_ & Hrows & Hrender).
  split; [exact (Hrows (JS.Number (42 # 1)) eq_refl) | exact Hrender].
Defined.

(** ** The backend address *)

Lemma tally_sends (env : Env) (net : NetResult) (f : File) (res : JS.Value) (l : bool) :
  filter is_network
    (effects (TallyImport.handleSubmit env net (TallyImport.mkState (SlotFile f) res l)))
  = [Fetch (Endpoints.import_tally env) "POST" [("file", f)]].
Proof. destruct net as [|[s [d| |]]|]; reflexivity. Qed.

Lemma tally_data_sends (env : Env) (net : NetResult) (f : File) (res : JS.Value) (l : bool) :
  filter is_network
    (effects (TallyDataImport.handleSubmit env net (TallyDataImport.mkState (SlotFile f) res l)))
  = [Fetch (Endpoints.import_tally env) "POST" [("file", f)]].
Proof. destruct net as [|[s [d| |]]|]; reflexivity. Qed.

(** The pages take the base from [NEXT_PUBLIC_BACKEND_URL] when it is set
    to something... *)
Lemma pages_use_configured_base (env : Env) (base : string) :
  env "NEXT_PUBLIC_BACKEND_URL" = Some base -> base <> "" ->
  Endpoints.gst_notice env = (base ++ "/gst_notice")%string /\
  Endpoints.import_tally env = (base ++ "/import_tally")%string /\
  Endpoints.tasks env = (base ++ "/tasks")%string /\
  Endpoints.appointments env = (base ++ "/appointments")%string /\
  Endpoints.clients env = (base ++ "/clients")%string /\
  Generate.endpoint env = (base ++ "/generate_reply")%string.
Proof.
  intros He Hne.
  unfold Endpoints.gst_notice, Endpoints.import_tally, Endpoints.tasks,
    Endpoints.appointments, Endpoints.clients, Generate.endpoint.
  rewrite He. simpl.
  destruct (String.eqb_spec base "") as [->|_]; [now elim Hne|].
  repeat split; reflexivity.
Qed.

(** ... and fall back on the local address when it is not set. *)
Lemma pages_default_to_localhost (env : Env) :
  env "NEXT_PUBLIC_BACKEND_URL" = None ->
  Endpoints.gst_notice env = (Endpoints.default_base ++ "/gst_notice")%string /\
  Endpoints.import_tally env = (Endpoints.default_base ++ "/import_tally")%string /\
  Endpoints.tasks env = (Endpoints.default_base ++ "/tasks")%string /\
  Endpoints.appointments env = (Endpoints.default_base ++ "/appointments")%string /\
  (env "BACKEND_URL" = None ->
   Endpoints.clients env = (Endpoints.default_base ++ "/clients")%string).
Proof.
  intros He.
  unfold Endpoints.gst_notice, Endpoints.import_tally, Endpoints.tasks,
    Endpoints.appointments, Endpoints.clients.
  rewrite He. repeat split. intros ->. reflexivity.
Qed.

(** C7 at the bridge with no variable set: the pages fall back on
    [http://localhost:8000], the bridge does not; it posts to
    [undefined/generate_reply]. *)
Theorem bridge_endpoint_has_no_default :
  let req := Generate.mkRequest "POST" (JS.Object [("prompt", JS.String "Hello, CA Suite!")]) in
  Generate.endpoint Endpoints.unset = "undefined/generate_reply" /\
  Generate.handler Endpoints.unset (AxiosFailed JS.NetworkError) req Generate.fresh
  = (Normal tt,
     Generate.mkRes 500 (Some (JS.Object [("message", JS.String "Error generating reply")])),
     [ AxiosPost "undefined/generate_reply"
         (JS.Object [("message", JS.String "Hello, CA Suite!")]);
       ConsoleError JS.NetworkError ]) /\
  Endpoints.gst_notice Endpoints.unset = "http://localhost:8000/gst_notice" /\
  Endpoints.import_tally Endpoints.unset = "http://localhost:8000/import_tally" /\
  Endpoints.tasks Endpoints.unset = "http://localhost:8000/tasks" /\
  Endpoints.appointments Endpoints.unset = "http://localhost:8000/appointments" /\
  Endpoints.clients Endpoints.unset = "http://localhost:8000/clients".
Proof.
  cbv zeta. repeat split; reflexivity.
Qed.

(** * Further properties of the pages *)

(** ** The GST page: what is shown after a response *)

Lemma gt0_length (xs : list JS.Value) :
  JS.gt0 (JS.Number (inject_Z (Z.of_nat (List.length xs))))
  = match xs with [] => false | _ => true end.
Proof. destruct xs; reflexivity. Qed.



(** A response whose [missing_documents] is a non-empty string is stored
    as it is, and the page then fails to render: the string has a positive
    [length] and no [map]. *)
Theorem gst_string_missing_breaks_render
    (env : Env) (status : Z) (props : list (string * JS.Value)) (s : string)
    (f : File) (support : list File) (r m : JS.Value) (l : bool) :
  JS.lookup "missing_documents" props = Some (JS.String s) ->
  s <> "" ->
  let st' := final_state
               (GSTNotice.handleSubmit env
                  (NetResponded (mkResponse status (BodyJSON (JS.Object props))))
                  (GSTNotice.mkState (SlotFile f) support r m l)) in
  GSTNotice.missing st' = JS.String s /\
  GSTNoticeView.render st' = inl JS.TypeError.
Proof.
  intros Hm Hne. cbv zeta. rewrite gst_stores_fields.
  unfold JS.prop. rewrite Hm.
  destruct s as [|c s']; [now elim Hne|].
  split; reflexivity.
Qed.

Lemma gst_string_missing_breaks_render_witness :
  GSTNoticeView.render
    (final_state
       (GSTNotice.handleSubmit Endpoints.unset
          (ok (JS.Object [("missing_documents", JS.String "PAN card")])) gst_ready))
  = inl JS.TypeError.
Proof.
  refine (proj2 (gst_string_missing_breaks_render Endpoints.unset 200
                   [("missing_documents", JS.String "PAN card")] "PAN card"
                   notice_pdf [] (JS.String "") (JS.Array []) false eq_refl _)).
  discriminate.
Defined.

(** A body that is valid JSON but no object: [null] makes [data.reply]
    throw, so it is logged like a failure and the shown result stays; any
    other value (number, string, boolean, array) has no [reply] and no
    [missing_documents], so the shown result is replaced by nothing, with
    no error logged. *)
Theorem gst_non_object_body
    (env : Env) (status : Z) (d : JS.Value)
    (f : File) (support : list File) (r m : JS.Value) (l : bool) :
  is_object d = false ->
  let run := GSTNotice.handleSubmit env
               (NetResponded (mkResponse status (BodyJSON d)))
               (GSTNotice.mkState (SlotFile f) support r m l) in
  completion run = Normal tt /\
  (nullish d = true ->
     final_state run = GSTNotice.mkState (SlotFile f) support r m false /\
     took_catch (effects run) = true) /\
  (nullish d = false ->
     final_state run
     = GSTNotice.mkState (SlotFile f) support JS.Undefined (JS.Array []) false /\
     took_catch (effects run) = false).
Proof.
  intros Hd. destruct d; try discriminate Hd; cbv zeta;
    (split; [reflexivity|]); split; intros Hn; try discriminate Hn;
    split; reflexivity.
Qed.

Lemma gst_non_object_body_witness :
  let st := GSTNotice.mkState (SlotFile notice_pdf) [] (JS.String "Dear Sir...")
              (JS.Array [JS.String "PAN card"]) false in
  final_state (GSTNotice.handleSubmit Endpoints.unset (ok (JS.Array [])) st)
  = GSTNotice.mkState (SlotFile notice_pdf) [] JS.Undefined (JS.Array []) false.
Proof.
  exact (proj1 (proj2 (proj2 (gst_non_object_body Endpoints.unset 200 (JS.Array [])
                                notice_pdf [] (JS.String "Dear Sir...")
                                (JS.Array [JS.String "PAN card"]) false eq_refl))
                  eq_refl)).
Defined.

(** ** Choosing files, then submitting *)

Lemma effects_after_modify {S A} (g : S -> S) (k : M S A) (s : S) :
  effects ((modify g ;; k) s) = effects (k (g s)) /\
  final_state ((modify g ;; k) s) = final_state (k (g s)).
Proof.
  unfold bind, modify, effects, final_state.
  destruct (k (g s)) as [[c s2] l2]. split; reflexivity.
Qed.

(** The notice that goes out is the first file of the last choice, with
    the supporting documents of the last choice in their order; and when
    the chooser was closed without a file, a notice chosen earlier is
    forgotten and submitting sends nothing. *)
Theorem submit_after_choosing
    (env : Env) (net : NetResult) (st : GSTNotice.State) :
  (forall f rest docs,
     filter is_network
       (effects ((Choosers.onNoticeChange (f :: rest) ;;
                  Choosers.onSupportChange docs ;;
                  GSTNotice.handleSubmit env net) st))
     = [Fetch (Endpoints.gst_notice env) "POST" (GSTNotice.encode f docs)]) /\
  filter is_network
    (effects ((Choosers.onNoticeChange [] ;; GSTNotice.handleSubmit env net) st)) = [] /\
  GSTNotice.loading
    (final_state ((Choosers.onNoticeChange [] ;; GSTNotice.handleSubmit env net) st))
  = GSTNotice.loading st.
Proof.
  destruct st as [slot support r m l].
  split; [|split].
  - intros f rest docs.
    unfold Choosers.onNoticeChange, Choosers.onSupportChange,
      GSTNotice.setNoticeFile, GSTNotice.setSupportFiles.
    rewrite (proj1 (effects_after_modify _ _ _)).
    rewrite (proj1 (effects_after_modify _ _ _)).
    apply handleSubmit_sends.
  - unfold Choosers.onNoticeChange, GSTNotice.setNoticeFile.
    rewrite (proj1 (effects_after_modify _ _ _)). reflexivity.
  - unfold Choosers.onNoticeChange, GSTNotice.setNoticeFile.
    rewrite (proj2 (effects_after_modify _ _ _)). reflexivity.
Qed.

(** ** The Tally pages: odd and failed responses *)

(** A falsy JSON body ([null], [false], [0], the empty string) is stored
    as the result of the Tally import page: the summary shown before is
    gone, nothing is logged, and unless the body is the number [0] (which
    React prints) the page shows nothing in its place. *)
Theorem tally_falsy_body_clears_summary
    (env : Env) (status : Z) (d : JS.Value) (f : File) (res : JS.Value) (l : bool) :
  JS.truthy d = false ->
  let run := TallyImport.handleSubmit env
               (NetResponded (mkResponse status (BodyJSON d)))
               (TallyImport.mkState (SlotFile f) res l) in
  TallyImport.result (final_state run) = d /\
  TallyImport.render (final_state run) = inr [Expr d] /\
  ((forall q, d <> JS.Number q) -> shows_something [Expr d] = false) /\
  took_catch (effects run) = false.
Proof.
  intros Hd. cbv zeta.
  change (final_state (TallyImport.handleSubmit env
                         (NetResponded (mkResponse status (BodyJSON d)))
                         (TallyImport.mkState (SlotFile f) res l)))
    with (TallyImport.mkState (SlotFile f) d false).
  split; [reflexivity|]. split; [|split; [|reflexivity]].
  - unfold TallyImport.render. simpl TallyImport.result. now rewrite Hd.
  - intros Hq.
    destruct d as [| |b|q|s|xs|props]; try discriminate Hd; try reflexivity.
    + now elim (Hq q).
    + simpl in Hd. unfold shows_something. simpl.
      destruct (s =? "")%string; [reflexivity | discriminate Hd].
Qed.

Lemma tally_falsy_body_clears_summary_witness :
  TallyImport.render
    (final_state (TallyImport.handleSubmit Endpoints.unset (ok JS.Null)
                    (TallyImport.mkState (SlotFile ledger_csv)
                       (JS.Object tabular_example) false)))
  = inr [Expr JS.Null].
Proof.
  exact (proj1 (proj2 (tally_falsy_body_clears_summary Endpoints.unset 200 JS.Null
                         ledger_csv (JS.Object tabular_example) false eq_refl))).
Defined.

(** A server-reported error, [{ error: s }] with nothing else, is shown by
    the Tally import page as its one red line, exactly as its own
    'Failed to import file' is. *)
Theorem tally_shows_server_error
    (env : Env) (status : Z) (props : list (string * JS.Value)) (s : string)
    (f : File) (res : JS.Value) (l : bool) :
  JS.lookup "error" props = Some (JS.String s) ->
  s <> "" ->
  JS.lookup "rows" props = None ->
  JS.lookup "totals" props = None ->
  TallyImport.render
    (final_state (TallyImport.handleSubmit env
                    (NetResponded (mkResponse status (BodyJSON (JS.Object props))))
                    (TallyImport.mkState (SlotFile f) res l)))
  = inr [ Elem "div" [ Elem "h2" [Text "Summary"];
                       Elem "p" [Expr (JS.String s)];
                       Expr (JS.Bool false);
                       Expr JS.Undefined ] ].
Proof.
  intros He Hne Hr Ht.
  change (final_state (TallyImport.handleSubmit env
                         (NetResponded (mkResponse status (BodyJSON (JS.Object props))))
                         (TallyImport.mkState (SlotFile f) res l)))
    with (TallyImport.mkState (SlotFile f) (JS.Object props) false).
  unfold TallyImport.render, TallyImport.rowCount. simpl.
  unfold JS.prop. rewrite He, Hr, Ht. simpl.
  unfold and_then. simpl.
  destruct (String.eqb_spec s "") as [->|_]; [now elim Hne | reflexivity].
Qed.

Lemma tally_shows_server_error_witness :
  TallyImport.render
    (final_state (TallyImport.handleSubmit Endpoints.unset
                    (ok (JS.Object [("error", JS.String "Unsupported file")])) tally_ready))
  = inr [ Elem "div" [ Elem "h2" [Text "Summary"];
                       Elem "p" [Expr (JS.String "Unsupported file")];
                       Expr (JS.Bool false);
                       Expr JS.Undefined ] ].
Proof.
  refine (tally_shows_server_error Endpoints.unset 200
            [("error", JS.String "Unsupported file")] "Unsupported file"
            ledger_csv JS.Null false eq_refl _ eq_refl eq_refl).
  discriminate.
Defined.

(** What the second Tally page shows depends on [row_count] and [totals]
    of the result and on nothing else in it: in particular a
    server-reported [error] is never shown. *)
Theorem tally_data_shows_count_and_totals_only
    (props props' : list (string * JS.Value)) (slot slot' : FileSlot) (l : bool) :
  JS.prop props "row_count" = JS.prop props' "row_count" ->
  JS.prop props "totals" = JS.prop props' "totals" ->
  TallyDataImport.render (TallyDataImport.mkState slot (JS.Object props) l)
  = TallyDataImport.render (TallyDataImport.mkState slot' (JS.Object props') l).
Proof.
  intros Hr Ht.
  unfold TallyDataImport.render, TallyDataImport.rowCount. simpl.
  now rewrite Hr, Ht.
Qed.

Lemma tally_data_shows_count_and_totals_only_witness :
  TallyDataImport.render
    (TallyDataImport.mkState SlotNull (JS.Object [("error", JS.String "Unsupported file")]) false)
  = TallyDataImport.render (TallyDataImport.mkState SlotNull (JS.Object []) false).
Proof.
  exact (tally_data_shows_count_and_totals_only
           [("error", JS.String "Unsupported file")] [] SlotNull SlotNull false
           eq_refl eq_refl).
Defined.

(** On the second Tally page a failed exchange leaves the result that was
    shown: only [loading] is written, and it ends [false]. *)
Theorem tally_data_failure_keeps_result
    (env : Env) (net : NetResult) (st : TallyDataImport.State) :
  exchange_fails net = true ->
  final_state (TallyDataImport.handleSubmit env net st)
  = TallyDataImport.mkState (TallyDataImport.file st) (TallyDataImport.result st)
      (if slot_truthy (TallyDataImport.file st) then false else TallyDataImport.loading st).
Proof.
  intros Hf. destruct st as [slot res l].
  destruct net as [|[s [d| |]]|]; try discriminate Hf; destruct slot; reflexivity.
Qed.

Lemma tally_data_failure_keeps_result_witness :
  TallyDataImport.result
    (final_state (TallyDataImport.handleSubmit Endpoints.unset NetRejected
                    (TallyDataImport.mkState (SlotFile ledger_csv)
                       (JS.Object tabular_example) false)))
  = JS.Object tabular_example.
Proof.
  rewrite (tally_data_failure_keeps_result Endpoints.unset NetRejected
             (TallyDataImport.mkState (SlotFile ledger_csv) (JS.Object tabular_example) false)
             eq_refl).
  reflexivity.
Defined.

(** Choosing a file on the Tally import page and submitting sends that
    file alone, under [file]; closing the chooser without one blocks the
    submission. *)
Theorem tally_submit_after_choosing
    (env : Env) (net : NetResult) (st : TallyImport.State) :
  (forall f rest,
     filter is_network
       (effects ((Choosers.handleFileChange (f :: rest) ;;
                  TallyImport.handleSubmit env net) st))
     = [Fetch (Endpoints.import_tally env) "POST" [("file", f)]]) /\
  filter is_network
    (effects ((Choosers.handleFileChange [] ;; TallyImport.handleSubmit env net) st)) = [].
Proof.
  destruct st as [slot res l]. split.
  - intros f rest. unfold Choosers.handleFileChange, TallyImport.setFile.
    rewrite (proj1 (effects_after_modify _ _ _)). apply tally_sends.
  - unfold Choosers.handleFileChange, TallyImport.setFile.
    rewrite (proj1 (effects_after_modify _ _ _)). reflexivity.
Qed.

(** ** The completion bridge: failures *)

(** When the downstream call is rejected, or resolves with [null] or
    [undefined] data, the bridge logs the error and answers 500 with
    [{ message: 'Error generating reply' }]; the cause is not passed on. *)
Theorem bridge_failure_is_500
    (env : Env) (net : AxiosResult) (req : Generate.Request) (prompt : JS.Value)
    (e : JS.Error) (res0 : Generate.Res) :
  Generate.method req = "POST" ->
  JS.get (Generate.body req) "prompt" = inr prompt ->
  axios_error net = Some e ->
  Generate.handler env net req res0
  = (Normal tt,
     Generate.mkRes 500 (Some (JS.Object [("message", JS.String "Error generating reply")])),
     [ AxiosPost (Generate.endpoint env) (JS.Object [("message", prompt)]);
       ConsoleError e ]).
Proof.
  intros Hm Hp He. unfold Generate.handler. rewrite Hm, Hp. simpl.
  destruct net as [e'|d|]; simpl in He.
  - injection He as ->. reflexivity.
  - destruct d; simpl in He; try discriminate He; injection He as <-; reflexivity.
  - discriminate He.
Qed.

Lemma bridge_failure_is_500_witness :
  Generate.statusCode
    (final_state
       (Generate.handler Endpoints.unset (AxiosFailed (JS.HTTPError 503))
          (Generate.mkRequest "POST" (Home.payload "Hello")) Generate.fresh))
  = 500%Z.
Proof.
  rewrite (bridge_failure_is_500 Endpoints.unset (AxiosFailed (JS.HTTPError 503))
             (Generate.mkRequest "POST" (Home.payload "Hello")) (JS.String "Hello")
             (JS.HTTPError 503) Generate.fresh eq_refl eq_refl eq_refl).
  reflexivity.
Defined.

(** A [POST] whose body is [undefined] or [null] makes the bridge throw
    while it reads [prompt], before the [try]: nothing is sent downstream
    and no answer is written. *)
Theorem bridge_without_body_throws
    (env : Env) (net : AxiosResult) (req : Generate.Request) (res0 : Generate.Res) :
  Generate.method req = "POST" ->
  nullish (Generate.body req) = true ->
  Generate.handler env net req res0 = (Throw JS.TypeError, res0, []).
Proof.
  intros Hm Hb. unfold Generate.handler. rewrite Hm. simpl.
  destruct (Generate.body req); try discriminate Hb; reflexivity.
Qed.

Lemma bridge_without_body_throws_witness :
  Generate.handler Endpoints.unset (AxiosResolved JS.Null)
    (Generate.mkRequest "POST" JS.Undefined) Generate.fresh
  = (Throw JS.TypeError, Generate.fresh, []).
Proof.
  exact (bridge_without_body_throws Endpoints.unset (AxiosResolved JS.Null)
           (Generate.mkRequest "POST" JS.Undefined) Generate.fresh eq_refl eq_refl).
Defined.



(** ** The home page *)

(** A submission of the home page posts [{ prompt: input }] once, also
    for an empty input; it never throws and never changes the input.  A
    rejected call, or one that resolves without data, puts
    'Error generating reply' where the reply is shown; data that is an
    object puts its [reply] there, [undefined] when it has none. *)
Theorem home_submit (net : AxiosResult) (st : Home.State) :
  let run := Home.handleSubmit net st in
  Home.input (final_state run) = Home.input st /\
  is_throw (completion run) = false /\
  filter is_network (effects run)
  = [AxiosPost "/api/generate" (Home.payload (Home.input st))] /\
  (forall e, axios_error net = Some e ->
     Home.reply (final_state run) = Home.failure_text /\
     Home.render (final_state run)
     = [ Elem "div" [ Elem "h2" [Text "Reply:"];
                      Elem "p" [Expr (JS.String "Error generating reply")] ] ] /\
     effects run
     = [ PreventDefault;
         AxiosPost "/api/generate" (Home.payload (Home.input st));
         ConsoleError e ]) /\
  (forall props, net = AxiosResolved (JS.Object props) ->
     Home.reply (final_state run) = JS.prop props "reply").
Proof.
  destruct st as [text r]. cbv zeta.
  split; [|split; [|split; [|split]]].
  - destruct net as [e|d|]; try reflexivity. destruct d; reflexivity.
  - destruct net as [e|d|]; try reflexivity. destruct d; reflexivity.
  - destruct net as [e|d|]; try reflexivity. destruct d; reflexivity.
  - intros e He. destruct net as [e'|d|]; simpl in He; try discriminate He.
    + injection He as ->. repeat split; reflexivity.
    + destruct d; simpl in He; try discriminate He; injection He as <-;
        repeat split; reflexivity.
  - intros props ->. reflexivity.
Qed.

(** ** The home page through the bridge *)

Lemma or_is_defined (r : JS.Value) : JS.or r (JS.String "") <> JS.Undefined.
Proof.
  unfold JS.or. destruct (JS.truthy r) eqn:Ht.
  - intros ->. discriminate Ht.
  - discriminate.
Qed.

Lemma submit_resolved (env : Env) (d r : JS.Value) (st : Home.State) :
  JS.get d "reply" = inr r ->
  Home.reply (final_state (Route.submit env (AxiosResolved d) st))
  = JS.or r (JS.String "").
Proof.
  intros Hr. destruct st as [text r0].
  unfold Route.submit, Route.bridge_run, Generate.handler. simpl.
  unfold bind, try_catch, axios_post, lift. simpl. rewrite Hr. reflexivity.
Qed.

Lemma submit_failed (env : Env) (down : AxiosResult) (e : JS.Error) (st : Home.State) :
  axios_error down = Some e ->
  Home.reply (final_state (Route.submit env down st)) = Home.failure_text.
Proof.
  intros He. destruct st as [text r0].
  destruct down as [e'|d|]; simpl in He; try discriminate He; [reflexivity|].
  destruct d; simpl in He; try discriminate He; reflexivity.
Qed.

(** End to end: the text typed on the home page reaches the completion
    endpoint as [{ message: text }]; a string reply comes back to the page
    unchanged, a missing one as the empty string, and a failed or empty
    downstream answer as 'Error generating reply'.  Once the downstream
    call has settled, the reply on the page is never [undefined]; while it
    has not, the page is as it was. *)
Theorem home_through_bridge (env : Env) (down : AxiosResult) (st : Home.State) :
  let run := Route.submit env down st in
  filter is_network (effects (Route.bridge_run env down (Home.input st)))
  = [AxiosPost (Generate.endpoint env)
       (JS.Object [("message", JS.String (Home.input st))])] /\
  (forall props s, down = AxiosResolved (JS.Object props) ->
     JS.lookup "reply" props = Some (JS.String s) ->
     Home.reply (final_state run) = JS.String s) /\
  (forall props, down = AxiosResolved (JS.Object props) ->
     JS.lookup "reply" props = None ->
     Home.reply (final_state run) = JS.String "") /\
  (forall e, axios_error down = Some e ->
     Home.reply (final_state run) = Home.failure_text) /\
  (axios_settled down = true -> Home.reply (final_state run) <> JS.Undefined) /\
  (down = AxiosPending -> final_state run = st).
Proof.
  cbv zeta. split; [|split; [|split; [|split; [|split]]]].
  - destruct down as [e|d|]; try reflexivity.
    unfold Route.bridge_run, Generate.handler. simpl.
    unfold bind, try_catch, axios_post, lift. simpl.
    destruct (JS.get d "reply"); reflexivity.
  - intros props s -> Hl.
    rewrite (submit_resolved env (JS.Object props) (JS.String s))
      by (simpl; unfold JS.prop; now rewrite Hl).
    apply or_string_default.
  - intros props -> Hl.
    rewrite (submit_resolved env (JS.Object props) JS.Undefined)
      by (simpl; unfold JS.prop; now rewrite Hl).
    reflexivity.
  - intros e He. exact (submit_failed env down e st He).
  - intros Hs. destruct down as [e|d|]; try discriminate Hs.
    + rewrite (submit_failed env (AxiosFailed e) e st eq_refl). discriminate.
    + destruct (JS.get d "reply") as [e|r] eqn:Hr.
      * assert (Hn : axios_error (AxiosResolved d) = Some JS.TypeError)
          by (destruct d; try discriminate Hr; reflexivity).
        rewrite (submit_failed env (AxiosResolved d) JS.TypeError st Hn). discriminate.
      * rewrite (submit_resolved env d r st Hr). apply or_is_defined.
  - intros ->. destruct st as [text r0]. reflexivity.
Qed.

Lemma home_through_bridge_witness :
  Home.reply
    (final_state (Route.submit (fun _ => Some "http://backend")
                    (AxiosResolved (JS.Object [("reply", JS.String "Dear Sir...")]))
                    (Home.mkState "Draft a reply" (JS.String ""))))
  = JS.String "Dear Sir...".
Proof.
  exact (proj1 (proj2 (home_through_bridge (fun _ => Some "http://backend")
                         (AxiosResolved (JS.Object [("reply", JS.String "Dear Sir...")]))
                         (Home.mkState "Draft a reply" (JS.String ""))))
           [("reply", JS.String "Dear Sir...")] "Dear Sir..." eq_refl eq_refl).
Defined.

(** ** The clients page *)

(** With an empty name the form handler stops after [preventDefault]:
    nothing is posted, and list, inputs and error line are as they were. *)
Theorem clients_empty_name_sends_nothing
    (env : Env) (net : AxiosResult) (st : Clients.State) :
  Clients.name st = "" ->
  Clients.handleSubmit env net st = (Normal tt, st, [PreventDefault]).
Proof.
  destruct st as [cs n e err]. simpl. intros ->. reflexivity.
Qed.

Lemma clients_empty_name_sends_nothing_witness :
  Clients.handleSubmit Endpoints.unset (AxiosResolved JS.Null)
    (Clients.mkState (JS.Array []) "" "a@b.c" "")
  = (Normal tt, Clients.mkState (JS.Array []) "" "a@b.c" "", [PreventDefault]).
Proof.
  exact (clients_empty_name_sends_nothing Endpoints.unset (AxiosResolved JS.Null)
           (Clients.mkState (JS.Array []) "" "a@b.c" "") eq_refl).
Defined.

(** When the post resolves, what it returned is added after the clients
    already listed, which keep their places; both inputs and the error
    line are cleared.  An empty email is posted as [undefined]. *)
Theorem clients_created_is_appended
    (env : Env) (data : JS.Value) (xs : list JS.Value) (n e err : string) :
  n <> "" ->
  Clients.handleSubmit env (AxiosResolved data) (Clients.mkState (JS.Array xs) n e err)
  = (Normal tt,
     Clients.mkState (JS.Array (xs ++ [data])) "" "" "",
     [ PreventDefault;
       AxiosPost (Endpoints.clients env)
         (JS.Object [ ("name", JS.String n);
                      ("email", if (e =? "")%string then JS.Undefined else JS.String e) ]) ]).
Proof.
  intros Hn. destruct n as [|c n']; [now elim Hn|].
  destruct e; reflexivity.
Qed.

Lemma clients_created_is_appended_witness :
  final_state
    (Clients.handleSubmit Endpoints.unset
       (AxiosResolved (JS.Object [("id", JS.Number (2 # 1))]))
       (Clients.mkState (JS.Array [JS.Object [("id", JS.Number (1 # 1))]]) "Asha" "" "old"))
  = Clients.mkState
      (JS.Array [JS.Object [("id", JS.Number (1 # 1))]; JS.Object [("id", JS.Number (2 # 1))]])
      "" "" "".
Proof.
  rewrite (clients_created_is_appended Endpoints.unset
             (JS.Object [("id", JS.Number (2 # 1))])
             [JS.Object [("id", JS.Number (1 # 1))]] "Asha" "" "old").
  - reflexivity.
  - discriminate.
Defined.

(** When the post is rejected, or resolves while the stored list cannot
    be spread (it is not an array or a string), the request has gone out
    but the list and both inputs stay as they were and the error line
    reads 'Failed to create client'. *)
Theorem clients_failure_keeps_form
    (env : Env) (net : AxiosResult) (st : Clients.State) :
  Clients.name st <> "" ->
  (exists e, net = AxiosFailed e) \/
  (exists data, net = AxiosResolved data) /\ iterable (Clients.clients st) = false ->
  let run := Clients.handleSubmit env net st in
  completion run = Normal tt /\
  final_state run
  = Clients.mkState (Clients.clients st) (Clients.name st) (Clients.email st)
      "Failed to create client" /\
  filter is_network (effects run)
  = [AxiosPost (Endpoints.clients env) (Clients.payload (Clients.name st) (Clients.email st))] /\
  took_catch (effects run) = true.
Proof.
  destruct st as [cs n e err]. simpl. intros Hn Hnet.
  destruct n as [|c n']; [now elim Hn|].
  destruct Hnet as [[e' ->]|[[data ->] Hit]].
  - repeat split; reflexivity.
  - destruct cs; try discriminate Hit; repeat split; reflexivity.
Qed.

Lemma clients_failure_keeps_form_witness :
  final_state
    (Clients.handleSubmit Endpoints.unset (AxiosResolved (JS.Object []))
       (Clients.mkState JS.Null "Asha" "a@b.c" ""))
  = Clients.mkState JS.Null "Asha" "a@b.c" "Failed to create client".
Proof.
  assert (Hn : "Asha" <> "") by discriminate.
  exact (proj1 (proj2 (clients_failure_keeps_form Endpoints.unset
                         (AxiosResolved (JS.Object []))
                         (Clients.mkState JS.Null "Asha" "a@b.c" "") Hn
                         (or_intror (conj (ex_intro _ (JS.Object []) eq_refl) eq_refl))))).
Defined.

(** ** While the exchange is pending *)

(** Until the response arrives the GST page shows its loading line and,
    under it, the documents and the reply of the previous response. *)
Theorem gst_pending_shows_processing
    (env : Env) (f : File) (support : list File) (r : JS.Value)
    (xs : list JS.Value) (l : bool) :
  let run := GSTNotice.handleSubmit env NetPending
               (GSTNotice.mkState (SlotFile f) support r (JS.Array xs) l) in
  completion run = Suspended /\
  GSTNoticeView.render (final_state run)
  = inr [ Elem "p" [Text "Processing…"];
          missing_block xs;
          and_then r (Elem "div" [ Elem "h2" [Text "Draft Reply"];
                                   Elem "pre" [Expr r] ]) ].
Proof.
  cbv zeta. split; [reflexivity|].
  change (final_state (GSTNotice.handleSubmit env NetPending
                         (GSTNotice.mkState (SlotFile f) support r (JS.Array xs) l)))
    with (GSTNotice.mkState (SlotFile f) support r (JS.Array xs) true).
  unfold GSTNoticeView.render. simpl GSTNotice.missing.
  unfold JS.length, bind_sum. rewrite gt0_length.
  destruct xs; reflexivity.
Qed.

(** ** The form data carries nothing else *)

(** Under any field name other than [notice] and [additional_documents]
    the form data of a GST submission has no entry. *)
Theorem encode_has_no_other_field
    (notice : File) (support : list File) (name : string) :
  name <> "notice" ->
  name <> "additional_documents" ->
  FormData.getAll (GSTNotice.encode notice support) name = [].
Proof.
  intros Hn Ha. rewrite encode_eq.
  change (("notice", notice) :: map (pair "additional_documents") support)
    with ([("notice", notice)] ++ map (pair "additional_documents") support).
  assert (Hn' : ("notice" =? name)%string = false)
    by (apply String.eqb_neq; congruence).
  assert (Ha' : ("additional_documents" =? name)%string = false)
    by (apply String.eqb_neq; congruence).
  rewrite getAll_app, (getAll_other name "additional_documents") by exact Ha'.
  unfold FormData.getAll. cbn [filter fst]. rewrite Hn'. reflexivity.
Qed.

Lemma encode_has_no_other_field_witness :
  FormData.getAll (GSTNotice.encode notice_pdf [ledger_csv]) "file" = [].
Proof.
  apply encode_has_no_other_field; discriminate.
Defined.

(** ** The backend address: set, empty, second variable *)

Lemma pages_use_configured_base_witness :
  Endpoints.tasks (fun _ => Some "https://api.example.in") = "https://api.example.in/tasks" /\
  Generate.endpoint (fun _ => Some "https://api.example.in")
  = "https://api.example.in/generate_reply".
Proof.
  assert (Hne : "https://api.example.in" <> "") by discriminate.
  destruct (pages_use_configured_base (fun _ => Some "https://api.example.in")
              "https://api.example.in" eq_refl Hne) as (_ & _ & Ht & _ & _ & Hg).
  split; [exact Ht | exact Hg].
Defined.

Lemma pages_default_to_localhost_witness :
  Endpoints.appointments Endpoints.unset = "http://localhost:8000/appointments" /\
  Endpoints.clients Endpoints.unset = "http://localhost:8000/clients".
Proof.
  destruct (pages_default_to_localhost Endpoints.unset eq_refl) as (_ & _ & _ & Ha & Hc).
  split; [exact Ha | exact (Hc eq_refl)].
Defined.

(** A variable that is set to the empty string counts as unset on the
    pages, which then use the local address; the bridge takes it as it is
    and posts to the bare path. *)
Theorem empty_base_counts_as_unset (env : Env) :
  env "NEXT_PUBLIC_BACKEND_URL" = Some "" ->
  Endpoints.gst_notice env = "http://localhost:8000/gst_notice" /\
  Endpoints.import_tally env = "http://localhost:8000/import_tally" /\
  Endpoints.tasks env = "http://localhost:8000/tasks" /\
  Endpoints.appointments env = "http://localhost:8000/appointments" /\
  Generate.endpoint env = "/generate_reply".
Proof.
  intros He.
  unfold Endpoints.gst_notice, Endpoints.import_tally, Endpoints.tasks,
    Endpoints.appointments, Generate.endpoint.
  rewrite He. repeat split; reflexivity.
Qed.

Lemma empty_base_counts_as_unset_witness :
  Endpoints.gst_notice (fun _ => Some "") = "http://localhost:8000/gst_notice" /\
  Generate.endpoint (fun _ => Some "") = "/generate_reply".
Proof.
  destruct (empty_base_counts_as_unset (fun _ => Some "") eq_refl) as (Hg & _ & _ & _ & Hb).
  split; [exact Hg | exact Hb].
Defined.

(** The clients page looks at [BACKEND_URL] only when
    [NEXT_PUBLIC_BACKEND_URL] is unset or empty, and uses it unless it is
    empty too. *)
Theorem clients_second_variable (env : Env) (second : string) :
  env "NEXT_PUBLIC_BACKEND_URL" = None \/ env "NEXT_PUBLIC_BACKEND_URL" = Some "" ->
  env "BACKEND_URL" = Some second ->
  Clients.baseURL env = (if (second =? "")%string then "http://localhost:8000" else second) /\
  Endpoints.clients env = (Clients.baseURL env ++ "/clients")%string /\
  forall first, first <> "" ->
    Clients.baseURL (fun k => if (k =? "NEXT_PUBLIC_BACKEND_URL")%string
                              then Some first else env k) = first.
Proof.
  intros Hfirst Hsecond. split; [|split].
  - unfold Clients.baseURL. rewrite Hsecond.
    destruct Hfirst as [-> | ->]; reflexivity.
  - reflexivity.
  - intros first Hne. unfold Clients.baseURL. simpl.
    destruct first; [now elim Hne | reflexivity].
Qed.

Lemma clients_second_variable_witness :
  Clients.baseURL (fun k => if (k =? "BACKEND_URL")%string then Some "http://10.0.0.5" else None)
  = "http://10.0.0.5".
Proof.
  exact (proj1 (clients_second_variable
                  (fun k => if (k =? "BACKEND_URL")%string then Some "http://10.0.0.5" else None)
                  "http://10.0.0.5" (or_introl eq_refl) eq_refl)).
Defined.
